(** * Stopwatch firmware (main.cpp): cooperative super-loop

    A shallow embedding of [main.cpp]: the globals and the locals of
    [main] form one [State]; every statement that touches the hardware
    timer, a GPIO line or the LCD runs in a small state monad, so that the
    loop body below reads statement by statement like the C++ source.

    [button.h], [timerLib.h], [elapsedTime.h] and the graphics headers
    are not part of the sources; the classes they declare are modelled
    from the specification (each definition says so). *)

From Stdlib Require Import ZArith List String Ascii Bool Lia DecimalString.
From Stdlib Require DecimalPos DecimalN.
Import ListNotations.
Local Open Scope Z_scope.

(* ====================================================================== *)
(** ** Machine integers *)
(* ====================================================================== *)

(** [uint32_t]: a [Z] kept in [0, 2^32) by [wrap32] after every
    arithmetic operation that can leave the range. *)
Definition wrap32 (x : Z) : Z := x mod 2 ^ 32.

Definition UINT32_MAX : Z := 2 ^ 32 - 1.

Definition is_u32 (x : Z) : Prop := 0 <= x < 2 ^ 32.

(* ===== Global configuration ===== *)
Definition BUTTON_TICK_MS : Z := 20.
Definition DISPLAY_REFRESH_MS : Z := 50.

(* ====================================================================== *)
(** ** Hardware seen by the program *)
(* ====================================================================== *)

(** The two push buttons of the board. *)
Inductive Pin : Type := S1 | S2.

(** The free-running counter of TIMER0 and the two input lines.  The
    environment is scripted: [hw_elapse] lists the ticks that pass before
    each upcoming read of the counter, [hw_s1] and [hw_s2] the levels
    ([true] = pressed) seen by the upcoming reads of each line.  An
    exhausted script means no time passes and the line is released. *)
Record Hw : Type := mkHw {
  hw_counter : Z;
  hw_elapse : list Z;
  hw_s1 : list bool;
  hw_s2 : list bool;
}.

(* ====================================================================== *)
(** ** Calls into the LCD stack *)
(* ====================================================================== *)

Inductive Color : Type :=
  ClrBlack | ClrCyan | ClrYellow | ClrOlive | ClrGray | ClrWhite.

(** A colour argument: passed as it is, or first stored in a [uint16_t]
    local as [drawButton] does. *)
Inductive ColorArg : Type :=
| Clr (c : Color)
| ClrU16 (c : Color).

Record tRectangle : Type := mkRect {
  i16XMin : Z;
  i16YMin : Z;
  i16XMax : Z;
  i16YMax : Z;
}.

(** What the program asks of the display, in call order.  The last
    constructor stands for the overload
    [drawStopwatchScreen(tContext&, uint32_t currentMs, bool running)],
    which line 55 declares and line 145 calls but which has no body in the
    sources: the call is recorded, nothing is known of its drawing. *)
Inductive GrCall : Type :=
| Crystalfontz128x128_Init
| Crystalfontz128x128_SetOrientation_UP
| GrContextInit
| GrContextFontSet_Fixed6x8
| GrContextForegroundSet (c : ColorArg)
| GrRectFill (r : tRectangle)
| GrRectDraw (r : tRectangle)
| GrStringDrawCentered (text : string) (len x y : Z) (opaque : bool)
| GrFlush
| drawStopwatchScreen_declared (currentMs : Z) (running : bool).

(* ====================================================================== *)
(** ** Program data *)
(* ====================================================================== *)

(* STRUCT: Simple GUI Button (for drawing) *)
Record MyButton : Type := mkMyButton {
  btn_x : Z;
  btn_y : Z;
  btn_w : Z;
  btn_h : Z;
  label : string;
  pressed : bool;
}.

(** Modelled from the spec: class [Timer] of [timerLib.h] is missing.
    Section 4.1: [begin] records ticks-per-millisecond
    [= clock_hz / 1000]. *)
Record Timer : Type := mkTimer {
  ticksPerMs : Z;
}.

(** Modelled from the spec: class [elapsedMillis] of [elapsedTime.h] is
    missing.  Section 3: the meter holds a tick snapshot [origin]. *)
Record elapsedMillis : Type := mkElapsed {
  origin : Z;
}.

(** Modelled from the spec: class [Button] of [button.h] is missing.
    Section 3 lists its fields: identity, last sampled level, stable
    level, debounce count and the two pending edge flags; section 4.3
    adds the tick interval and the debounce window. *)
Record Button : Type := mkButton {
  pin : Pin;
  tickIntervalMs : Z;
  debounceMs : Z;
  lastLevel : bool;
  stableLevel : bool;
  count : Z;
  pressedEdge : bool;
  releasedEdge : bool;
}.

(** Globals of the translation unit, locals of [main], the hardware and
    the log of calls made to the display. *)
Record State : Type := mkState {
  hw : Hw;
  lcd : list GrCall;
  gSystemClock : Z;
  gStopwatchMs : Z;
  gRunning : bool;
  btnStart : MyButton;
  guiBtnReset : MyButton;
  btnPlayPause : Button;
  btnReset : Button;
  timer : Timer;
  buttonTick : elapsedMillis;
  displayTick : elapsedMillis;
  stopwatchTick : elapsedMillis;
  lastDisplayedSec : Z;
  lastDisplayedMin : Z;
  lastDisplayedHr : Z;
  lastDisplayedMS : Z;
  lastRunning : bool;
}.

Definition set_hw (v : Hw) (s : State) : State :=
  mkState v (lcd s) (gSystemClock s) (gStopwatchMs s) (gRunning s)
    (btnStart s) (guiBtnReset s) (btnPlayPause s) (btnReset s) (timer s)
    (buttonTick s) (displayTick s) (stopwatchTick s)
    (lastDisplayedSec s) (lastDisplayedMin s) (lastDisplayedHr s)
    (lastDisplayedMS s) (lastRunning s).

Definition set_lcd (v : list GrCall) (s : State) : State :=
  mkState (hw s) v (gSystemClock s) (gStopwatchMs s) (gRunning s)
    (btnStart s) (guiBtnReset s) (btnPlayPause s) (btnReset s) (timer s)
    (buttonTick s) (displayTick s) (stopwatchTick s)
    (lastDisplayedSec s) (lastDisplayedMin s) (lastDisplayedHr s)
    (lastDisplayedMS s) (lastRunning s).

Definition set_gSystemClock (v : Z) (s : State) : State :=
  mkState (hw s) (lcd s) v (gStopwatchMs s) (gRunning s) (btnStart s)
    (guiBtnReset s) (btnPlayPause s) (btnReset s) (timer s)
    (buttonTick s) (displayTick s) (stopwatchTick s)
    (lastDisplayedSec s) (lastDisplayedMin s) (lastDisplayedHr s)
    (lastDisplayedMS s) (lastRunning s).

Definition set_gStopwatchMs (v : Z) (s : State) : State :=
  mkState (hw s) (lcd s) (gSystemClock s) v (gRunning s) (btnStart s)
    (guiBtnReset s) (btnPlayPause s) (btnReset s) (timer s)
    (buttonTick s) (displayTick s) (stopwatchTick s)
    (lastDisplayedSec s) (lastDisplayedMin s) (lastDisplayedHr s)
    (lastDisplayedMS s) (lastRunning s).

Definition set_gRunning (v : bool) (s : State) : State :=
  mkState (hw s) (lcd s) (gSystemClock s) (gStopwatchMs s) v
    (btnStart s) (guiBtnReset s) (btnPlayPause s) (btnReset s) (timer s)
    (buttonTick s) (displayTick s) (stopwatchTick s)
    (lastDisplayedSec s) (lastDisplayedMin s) (lastDisplayedHr s)
    (lastDisplayedMS s) (lastRunning s).

Definition set_btnStart (v : MyButton) (s : State) : State :=
  mkState (hw s) (lcd s) (gSystemClock s) (gStopwatchMs s) (gRunning s)
    v (guiBtnReset s) (btnPlayPause s) (btnReset s) (timer s)
    (buttonTick s) (displayTick s) (stopwatchTick s)
    (lastDisplayedSec s) (lastDisplayedMin s) (lastDisplayedHr s)
    (lastDisplayedMS s) (lastRunning s).

Definition set_guiBtnReset (v : MyButton) (s : State) : State :=
  mkState (hw s) (lcd s) (gSystemClock s) (gStopwatchMs s) (gRunning s)
    (btnStart s) v (btnPlayPause s) (btnReset s) (timer s)
    (buttonTick s) (displayTick s) (stopwatchTick s)
    (lastDisplayedSec s) (lastDisplayedMin s) (lastDisplayedHr s)
    (lastDisplayedMS s) (lastRunning s).

Definition set_btnPlayPause (v : Button) (s : State) : State :=
  mkState (hw s) (lcd s) (gSystemClock s) (gStopwatchMs s) (gRunning s)
    (btnStart s) (guiBtnReset s) v (btnReset s) (timer s) (buttonTick s)
    (displayTick s) (stopwatchTick s) (lastDisplayedSec s)
    (lastDisplayedMin s) (lastDisplayedHr s) (lastDisplayedMS s)
    (lastRunning s).

Definition set_btnReset (v : Button) (s : State) : State :=
  mkState (hw s) (lcd s) (gSystemClock s) (gStopwatchMs s) (gRunning s)
    (btnStart s) (guiBtnReset s) (btnPlayPause s) v (timer s)
    (buttonTick s) (displayTick s) (stopwatchTick s)
    (lastDisplayedSec s) (lastDisplayedMin s) (lastDisplayedHr s)
    (lastDisplayedMS s) (lastRunning s).

Definition set_timer (v : Timer) (s : State) : State :=
  mkState (hw s) (lcd s) (gSystemClock s) (gStopwatchMs s) (gRunning s)
    (btnStart s) (guiBtnReset s) (btnPlayPause s) (btnReset s) v
    (buttonTick s) (displayTick s) (stopwatchTick s)
    (lastDisplayedSec s) (lastDisplayedMin s) (lastDisplayedHr s)
    (lastDisplayedMS s) (lastRunning s).

Definition set_buttonTick (v : elapsedMillis) (s : State) : State :=
  mkState (hw s) (lcd s) (gSystemClock s) (gStopwatchMs s) (gRunning s)
    (btnStart s) (guiBtnReset s) (btnPlayPause s) (btnReset s) (timer s)
    v (displayTick s) (stopwatchTick s) (lastDisplayedSec s)
    (lastDisplayedMin s) (lastDisplayedHr s) (lastDisplayedMS s)
    (lastRunning s).

Definition set_displayTick (v : elapsedMillis) (s : State) : State :=
  mkState (hw s) (lcd s) (gSystemClock s) (gStopwatchMs s) (gRunning s)
    (btnStart s) (guiBtnReset s) (btnPlayPause s) (btnReset s) (timer s)
    (buttonTick s) v (stopwatchTick s) (lastDisplayedSec s)
    (lastDisplayedMin s) (lastDisplayedHr s) (lastDisplayedMS s)
    (lastRunning s).

Definition set_stopwatchTick (v : elapsedMillis) (s : State) : State :=
  mkState (hw s) (lcd s) (gSystemClock s) (gStopwatchMs s) (gRunning s)
    (btnStart s) (guiBtnReset s) (btnPlayPause s) (btnReset s) (timer s)
    (buttonTick s) (displayTick s) v (lastDisplayedSec s)
    (lastDisplayedMin s) (lastDisplayedHr s) (lastDisplayedMS s)
    (lastRunning s).

Definition set_lastDisplayedSec (v : Z) (s : State) : State :=
  mkState (hw s) (lcd s) (gSystemClock s) (gStopwatchMs s) (gRunning s)
    (btnStart s) (guiBtnReset s) (btnPlayPause s) (btnReset s) (timer s)
    (buttonTick s) (displayTick s) (stopwatchTick s) v
    (lastDisplayedMin s) (lastDisplayedHr s) (lastDisplayedMS s)
    (lastRunning s).

Definition set_lastDisplayedMin (v : Z) (s : State) : State :=
  mkState (hw s) (lcd s) (gSystemClock s) (gStopwatchMs s) (gRunning s)
    (btnStart s) (guiBtnReset s) (btnPlayPause s) (btnReset s) (timer s)
    (buttonTick s) (displayTick s) (stopwatchTick s)
    (lastDisplayedSec s) v (lastDisplayedHr s) (lastDisplayedMS s)
    (lastRunning s).

Definition set_lastDisplayedHr (v : Z) (s : State) : State :=
  mkState (hw s) (lcd s) (gSystemClock s) (gStopwatchMs s) (gRunning s)
    (btnStart s) (guiBtnReset s) (btnPlayPause s) (btnReset s) (timer s)
    (buttonTick s) (displayTick s) (stopwatchTick s)
    (lastDisplayedSec s) (lastDisplayedMin s) v (lastDisplayedMS s)
    (lastRunning s).

Definition set_lastDisplayedMS (v : Z) (s : State) : State :=
  mkState (hw s) (lcd s) (gSystemClock s) (gStopwatchMs s) (gRunning s)
    (btnStart s) (guiBtnReset s) (btnPlayPause s) (btnReset s) (timer s)
    (buttonTick s) (displayTick s) (stopwatchTick s)
    (lastDisplayedSec s) (lastDisplayedMin s) (lastDisplayedHr s) v
    (lastRunning s).

Definition set_lastRunning (v : bool) (s : State) : State :=
  mkState (hw s) (lcd s) (gSystemClock s) (gStopwatchMs s) (gRunning s)
    (btnStart s) (guiBtnReset s) (btnPlayPause s) (btnReset s) (timer s)
    (buttonTick s) (displayTick s) (stopwatchTick s)
    (lastDisplayedSec s) (lastDisplayedMin s) (lastDisplayedHr s)
    (lastDisplayedMS s) v.
Definition set_label (v : string) (b : MyButton) : MyButton :=
  mkMyButton (btn_x b) (btn_y b) (btn_w b) (btn_h b) v (pressed b).

Definition set_pressed (v : bool) (b : MyButton) : MyButton :=
  mkMyButton (btn_x b) (btn_y b) (btn_w b) (btn_h b) (label b) v.

(* ====================================================================== *)
(** ** A state monad for the statements of the program *)
(* ====================================================================== *)

Definition M (A : Type) : Type := State -> A * State.

Definition ret {A : Type} (a : A) : M A := fun s => (a, s).

Definition bind {A B : Type} (c : M A) (k : A -> M B) : M B :=
  fun s => let (a, s1) := c s in k a s1.

Definition gets {A : Type} (f : State -> A) : M A := fun s => (f s, s).

Definition modify (f : State -> State) : M unit := fun s => (tt, f s).

(** The state a computation ends in, and the value it returns. *)
Definition exec {A : Type} (c : M A) (s : State) : State := snd (c s).
Definition eval {A : Type} (c : M A) (s : State) : A := fst (c s).

Declare Scope stmt_scope.
Delimit Scope stmt_scope with stmt.
Notation "x <- c ;; k" := (bind c (fun x => k))
  (at level 61, c at next level, right associativity) : stmt_scope.
Notation "c ;; k" := (bind c (fun _ => k))
  (at level 61, right associativity) : stmt_scope.
Local Open Scope stmt_scope.

(** [if (b) { c }] *)
Definition when (b : bool) (c : M unit) : M unit :=
  if b then c else ret tt.

(** [a || b] of C++: [b] is evaluated only when [a] is false. *)
Definition orelse (a : bool) (b : M bool) : M bool :=
  if a then ret true else b.

(* ====================================================================== *)
(** ** Timer, meters and buttons *)
(* ====================================================================== *)

Definition hw_advance (h : Hw) : Hw :=
  match hw_elapse h with
  | [] => h
  | d :: rest => mkHw (wrap32 (hw_counter h + d)) rest (hw_s1 h) (hw_s2 h)
  end.

Definition hw_sample (p : Pin) (h : Hw) : bool * Hw :=
  match p with
  | S1 => match hw_s1 h with
          | [] => (false, h)
          | l :: rest => (l, mkHw (hw_counter h) (hw_elapse h) rest (hw_s2 h))
          end
  | S2 => match hw_s2 h with
          | [] => (false, h)
          | l :: rest => (l, mkHw (hw_counter h) (hw_elapse h) (hw_s1 h) rest)
          end
  end.

(** Reads the input line of a button. *)
Definition gpio_read (p : Pin) : M bool :=
  fun s => let (l, h) := hw_sample p (hw s) in (l, set_hw h s).

(** Modelled from the spec: [Timer::begin] (section 4.1) starts the
    counter from zero and records ticks-per-millisecond
    [= clock_hz / 1000]. *)
Definition Timer_begin (clock_hz : Z) : M unit :=
  modify (fun s =>
    set_hw (mkHw 0 (hw_elapse (hw s)) (hw_s1 (hw s)) (hw_s2 (hw s)))
      (set_timer (mkTimer (clock_hz / 1000)) s)).

(** Modelled from the spec: [now_ticks() -> u32] reads the current
    counter (section 4.1). *)
Definition now_ticks : M Z :=
  fun s => let h := hw_advance (hw s) in (hw_counter h, set_hw h s).

(** Modelled from the spec: [ticks_to_ms(t)] is the integer division by
    ticks-per-millisecond (section 4.1). *)
Definition ticks_to_ms (t : Timer) (ticks : Z) : Z := ticks / ticksPerMs t.

(** Modelled from the spec: constructing a meter snapshots [origin] to
    [now] (section 4.2). *)
Definition elapsedMillis_new : M elapsedMillis :=
  now <- now_ticks ;;
  ret (mkElapsed now).

(** Modelled from the spec: the implicit read of a meter is
    [(now - origin) / ticks_per_ms] with the unsigned, wrap-safe
    subtraction (sections 3 and 4.2). *)
Definition elapsed_read (m : State -> elapsedMillis) : M Z :=
  o <- gets m ;;
  t <- gets timer ;;
  now <- now_ticks ;;
  ret (ticks_to_ms t (wrap32 (now - origin o))).

(** Modelled from the spec: [meter >= threshold_ms] compares the wrap-safe
    delta (section 4.2). *)
Definition elapsed_ge (m : State -> elapsedMillis) (threshold_ms : Z) : M bool :=
  ms <- elapsed_read m ;;
  ret (threshold_ms <=? ms).

(** Modelled from the spec: assigning [0] to a meter re-snapshots
    [origin = now] (section 4.2). *)
Definition elapsed_zero (set_m : elapsedMillis -> State -> State) : M unit :=
  now <- now_ticks ;;
  modify (set_m (mkElapsed now)).

(** Modelled from the spec: a [Button] is created for one input line; its
    settings are given by [setupButtons] before the first tick. *)
Definition Button_new (p : Pin) : Button :=
  mkButton p 1 1 false false 0 false false.

(** Modelled from the spec: [begin()] configures the line and reads the
    initial stable level (section 4.3). *)
Definition Button_begin (b : State -> Button)
    (set_b : Button -> State -> State) : M unit :=
  this <- gets b ;;
  raw <- gpio_read (pin this) ;;
  modify (set_b (mkButton (pin this) (tickIntervalMs this) (debounceMs this)
                   raw raw 0 false false)).

(** Modelled from the spec: a zero tick interval is clamped to one
    (section 4.3, failure semantics). *)
Definition Button_setTickIntervalMs (b : State -> Button)
    (set_b : Button -> State -> State) (dt : Z) : M unit :=
  this <- gets b ;;
  modify (set_b (mkButton (pin this) (if dt =? 0 then 1 else dt)
                   (debounceMs this) (lastLevel this) (stableLevel this)
                   (count this) (pressedEdge this) (releasedEdge this))).

(** Modelled from the spec: a debounce window shorter than one tick is
    clamped to one tick (section 4.3, failure semantics). *)
Definition Button_setDebounceMs (b : State -> Button)
    (set_b : Button -> State -> State) (db : Z) : M unit :=
  this <- gets b ;;
  modify (set_b (mkButton (pin this) (tickIntervalMs this)
                   (Z.max db (tickIntervalMs this)) (lastLevel this)
                   (stableLevel this) (count this) (pressedEdge this)
                   (releasedEdge this))).

(** Modelled from the spec: the debounce step of section 4.3.  Read the
    raw line; if it equals the stable level the count is zeroed;
    otherwise the count is incremented and, once [count * dt] reaches the
    debounce window, the new level becomes stable, the matching edge flag
    is set and the count is zeroed. *)
Definition Button_tick (b : State -> Button)
    (set_b : Button -> State -> State) : M unit :=
  this <- gets b ;;
  raw <- gpio_read (pin this) ;;
  if Bool.eqb raw (stableLevel this) then
    modify (set_b (mkButton (pin this) (tickIntervalMs this) (debounceMs this)
                     raw (stableLevel this) 0
                     (pressedEdge this) (releasedEdge this)))
  else
    let n := count this + 1 in
    if debounceMs this <=? n * tickIntervalMs this then
      modify (set_b (mkButton (pin this) (tickIntervalMs this)
                       (debounceMs this) raw raw 0
                       (if raw then true else pressedEdge this)
                       (if raw then releasedEdge this else true)))
    else
      modify (set_b (mkButton (pin this) (tickIntervalMs this)
                       (debounceMs this) raw (stableLevel this) n
                       (pressedEdge this) (releasedEdge this))).

(** Modelled from the spec: [was_pressed()] is a one-shot edge consumer,
    it returns the pending flag and clears it (sections 3 and 4.3). *)
Definition Button_wasPressed (b : State -> Button)
    (set_b : Button -> State -> State) : M bool :=
  this <- gets b ;;
  modify (set_b (mkButton (pin this) (tickIntervalMs this) (debounceMs this)
                   (lastLevel this) (stableLevel this) (count this)
                   false (releasedEdge this))) ;;
  ret (pressedEdge this).

(** Modelled from the spec: [was_released()], the symmetric consumer. *)
Definition Button_wasReleased (b : State -> Button)
    (set_b : Button -> State -> State) : M bool :=
  this <- gets b ;;
  modify (set_b (mkButton (pin this) (tickIntervalMs this) (debounceMs this)
                   (lastLevel this) (stableLevel this) (count this)
                   (pressedEdge this) false)) ;;
  ret (releasedEdge this).

(* ====================================================================== *)
(** ** Formatting *)
(* ====================================================================== *)

(** Decimal digits of an unsigned value. *)
Definition utoa (n : Z) : string :=
  NilEmpty.string_of_uint (N.to_uint (Z.to_N n)).

Fixpoint zeros (k : nat) : string :=
  match k with
  | O => EmptyString
  | S k' => String "0" (zeros k')
  end.

(** The conversion ["%0<width>u"] of printf: decimal, padded with zeros on
    the left up to [width] characters, never truncated. *)
Definition fmt_0u (width : nat) (n : Z) : string :=
  let d := utoa n in
  (zeros (width - String.length d) ++ d)%string.

(** [snprintf(buf, size, ...)] leaves in [buf] at most [size - 1]
    characters of the formatted text, then the terminator. *)
Definition snprintf (size : nat) (text : string) : string :=
  substring 0 (size - 1) text.

(* ====================================================================== *)
(** ** Drawing functions *)
(* ====================================================================== *)

(** One call into the LCD stack, appended to the log. *)
Definition gr (c : GrCall) : M unit :=
  modify (fun s => set_lcd (lcd s ++ [c]) s).

Definition initializeDisplay : M unit :=
  gr Crystalfontz128x128_Init ;;
  gr Crystalfontz128x128_SetOrientation_UP ;;
  gr GrContextInit ;;
  gr GrContextFontSet_Fixed6x8 ;;
  let full := mkRect 0 0 127 127 in
  gr (GrContextForegroundSet (Clr ClrBlack)) ;;
  gr (GrRectFill full).

(** The two [snprintf] of lines 239 and 240 write the same buffer
    [char str[10]]; the second one decides what is drawn. *)
Definition str_line239 (currentHr currentMin currentSec currentMS : Z) : string :=
  snprintf 10 (fmt_0u 2 currentHr ++ ":" ++ fmt_0u 2 currentMin ++ ":"
               ++ fmt_0u 2 currentSec ++ ":" ++ fmt_0u 2 currentMS)%string.

Definition str_line240 (currentSec : Z) : string :=
  snprintf 10 (fmt_0u 2 currentSec ++ " s")%string.

(* Update function to display HH:MM:SS:MS *)
Definition drawStopwatchScreen
    (currentSec currentMin currentHr currentMS : Z) (running : bool) : M unit :=
  let rectFull := mkRect 0 0 127 127 in
  gr (GrContextForegroundSet (Clr ClrBlack)) ;;
  gr (GrRectFill rectFull) ;;
  (* === Draw title "STOPWATCH" at the top === *)
  gr (GrContextForegroundSet (Clr ClrCyan)) ;;
  gr (GrStringDrawCentered "STOPWATCH" (-1) 64 15 false) ;;
  (* Draw seconds counter and state centered *)
  let str := str_line239 currentHr currentMin currentSec currentMS in
  let str := str_line240 currentSec in
  let str2 := if running then "RUNNING"%string else "STOPPED"%string in
  gr (GrContextForegroundSet (Clr (if running then ClrYellow else ClrOlive))) ;;
  gr (GrStringDrawCentered str (-1) 64 50 false) ;;
  gr (GrStringDrawCentered str2 (-1) 64 40 false).

(** The fields of [tRectangle] are [int16_t] and the two colours pass
    through [uint16_t] locals: the rectangle below is the one the code
    builds as long as its coordinates fit 16 bits, which holds for the two
    buttons of the program; the colours are tagged [ClrU16] and valued by
    [color_passed]. *)
Definition drawButton (btn : MyButton) : M unit :=
  let bgColor := if pressed btn then ClrBlack else ClrGray in
  let textColor := if pressed btn then ClrWhite else ClrBlack in
  let rect := mkRect (btn_x btn) (btn_y btn)
                (btn_x btn + btn_w btn - 1) (btn_y btn + btn_h btn - 1) in
  gr (GrContextForegroundSet (ClrU16 bgColor)) ;;
  gr (GrRectFill rect) ;;
  gr (GrContextForegroundSet (Clr ClrBlack)) ;;
  gr (GrRectDraw rect) ;;
  gr (GrContextForegroundSet (ClrU16 textColor)) ;;
  gr (GrStringDrawCentered (label btn) (-1)
        (btn_x btn + Z.quot (btn_w btn) 2) (btn_y btn + Z.quot (btn_h btn) 2)
        false).

(* ====================================================================== *)
(** ** Button callbacks *)
(* ====================================================================== *)

Definition onPlayPauseClick : M unit :=
  r <- gets gRunning ;;
  modify (set_gRunning (negb r)) ;;
  r <- gets gRunning ;;
  b <- gets btnStart ;;
  modify (set_btnStart
            (set_label (if r then "PAUSE"%string else "PLAY"%string) b)).

Definition onPlayPauseRelease : M unit := ret tt.

Definition onResetClick : M unit :=
  modify (set_gStopwatchMs 0).

Definition onResetRelease : M unit := ret tt.

(* ====================================================================== *)
(** ** System configuration *)
(* ====================================================================== *)

Definition configureTimer : M unit :=
  clk <- gets gSystemClock ;;
  Timer_begin clk.

Definition setupButtons : M unit :=
  Button_begin btnPlayPause set_btnPlayPause ;;
  Button_setTickIntervalMs btnPlayPause set_btnPlayPause BUTTON_TICK_MS ;;
  Button_setDebounceMs btnPlayPause set_btnPlayPause 30 ;;
  Button_begin btnReset set_btnReset ;;
  Button_setTickIntervalMs btnReset set_btnReset BUTTON_TICK_MS ;;
  Button_setDebounceMs btnReset set_btnReset 30.

(** The state when [main] is entered: the globals hold their static
    initialisers (lines 26-28, 40-41, 46-47); the locals of [main] are
    assigned by [main_setup] before they are read. *)
Definition boot (h : Hw) : State :=
  mkState h [] 0 0 false
    (mkMyButton 0 80 50 28 "PLAY" false)
    (mkMyButton 60 80 50 28 "RESET" false)
    (Button_new S1) (Button_new S2)
    (mkTimer 0) (mkElapsed 0) (mkElapsed 0) (mkElapsed 0)
    0 0 0 0 false.

(** [main] up to the [while (true)] (lines 68-93).  The interrupt and FPU
    calls act on nothing the program reads; [SysCtlClockFreqSet] is taken
    to return the frequency it is asked for. *)
Definition main_setup : M unit :=
  modify (set_gSystemClock 120000000) ;;
  initializeDisplay ;;
  configureTimer ;;
  bt <- elapsedMillis_new ;; modify (set_buttonTick bt) ;;
  dt <- elapsedMillis_new ;; modify (set_displayTick dt) ;;
  st <- elapsedMillis_new ;; modify (set_stopwatchTick st) ;;
  setupButtons ;;
  (* Timer stuff *)
  modify (set_lastDisplayedSec (wrap32 (-1))) ;;
  modify (set_lastDisplayedMin (wrap32 (-1))) ;;
  modify (set_lastDisplayedHr (wrap32 (-1))) ;;
  modify (set_lastDisplayedMS (wrap32 (-1))) ;;
  r <- gets gRunning ;;
  modify (set_lastRunning (negb r)).

(* ====================================================================== *)
(** ** The super-loop *)
(* ====================================================================== *)

(* --- Poll physical buttons --- *)
Definition poll_buttons : M unit :=
  due <- elapsed_ge buttonTick BUTTON_TICK_MS ;;
  when due (
    Button_tick btnPlayPause set_btnPlayPause ;;
    Button_tick btnReset set_btnReset ;;
    elapsed_zero set_buttonTick).

(* --- Handle Play/Pause button --- *)
Definition handle_play_pause : M unit :=
  p <- Button_wasPressed btnPlayPause set_btnPlayPause ;;
  when p (
    b <- gets btnStart ;; modify (set_btnStart (set_pressed true b)) ;;
    onPlayPauseClick) ;;
  r <- Button_wasReleased btnPlayPause set_btnPlayPause ;;
  when r (
    b <- gets btnStart ;; modify (set_btnStart (set_pressed false b)) ;;
    onPlayPauseRelease).

Definition handle_reset : M unit :=
  p <- Button_wasPressed btnReset set_btnReset ;;
  when p (
    b <- gets guiBtnReset ;; modify (set_guiBtnReset (set_pressed true b)) ;;
    onResetClick) ;;
  r <- Button_wasReleased btnReset set_btnReset ;;
  when r (
    b <- gets guiBtnReset ;; modify (set_guiBtnReset (set_pressed false b)) ;;
    onResetRelease).

(* --- Stopwatch logic --- *)
Definition stopwatch_logic : M unit :=
  running <- gets gRunning ;;
  if running then
    delta <- elapsed_read stopwatchTick ;;
    when (0 <? delta) (
      ms <- gets gStopwatchMs ;;
      modify (set_gStopwatchMs (wrap32 (ms + delta))) ;;
      elapsed_zero set_stopwatchTick)
  else
    elapsed_zero set_stopwatchTick.

(** The three values derived from [gStopwatchMs] at lines 135-137, and the
    millisecond value of lines 138 and 179 (both definitions of
    [currentMS] hold the same value). *)
Definition currentSec_of (ms : Z) : Z := ms / 1000.
Definition currentMin_of (ms : Z) : Z := ms / 60000.
Definition currentHr_of (ms : Z) : Z := ms / 3600000.
Definition currentMS_of (ms : Z) : Z := ms / 1.

(** The condition shared by the four update blocks:
    [(current != last) || (gRunning != lastRunning)
     || (displayTick >= DISPLAY_REFRESH_MS)]. *)
Definition update_due (current : Z) (last : State -> Z) : M bool :=
  l <- gets last ;;
  r <- gets gRunning ;;
  lr <- gets lastRunning ;;
  orelse (negb (current =? l))
    (orelse (negb (Bool.eqb r lr))
       (elapsed_ge displayTick DISPLAY_REFRESH_MS)).

(** [GrFlush] is a macro of grlib.h, so the [#ifdef] of line 149 holds. *)
Definition GrFlush_defined : bool := true.

(* --- Update screen if needed --- *)
(* Seconds *)
Definition update_seconds (currentSec currentMin currentHr currentMS : Z) : M unit :=
  due <- update_due currentSec lastDisplayedSec ;;
  when due (
    r <- gets gRunning ;;
    drawStopwatchScreen currentSec currentMin currentHr currentMS r ;;
    gr (drawStopwatchScreen_declared currentSec r) ;;
    b <- gets btnStart ;; drawButton b ;;
    b <- gets guiBtnReset ;; drawButton b ;;
    when GrFlush_defined (gr GrFlush) ;;
    modify (set_lastDisplayedSec currentSec) ;;
    r <- gets gRunning ;; modify (set_lastRunning r) ;;
    elapsed_zero set_displayTick).

(* Mins *)
Definition update_mins (currentMin : Z) : M unit :=
  due <- update_due currentMin lastDisplayedMin ;;
  when due (
    modify (set_lastDisplayedMin currentMin) ;;
    r <- gets gRunning ;; modify (set_lastRunning r) ;;
    elapsed_zero set_displayTick).

(* Hours *)
Definition update_hours (currentHr : Z) : M unit :=
  due <- update_due currentHr lastDisplayedHr ;;
  when due (
    modify (set_lastDisplayedHr currentHr) ;;
    r <- gets gRunning ;; modify (set_lastRunning r) ;;
    elapsed_zero set_displayTick).

(* Millisecond *)
Definition update_millis (currentMS : Z) : M unit :=
  due <- update_due currentMS lastDisplayedMS ;;
  when due (
    modify (set_lastDisplayedMS currentMS) ;;
    r <- gets gRunning ;; modify (set_lastRunning r) ;;
    elapsed_zero set_displayTick).

(** Lines 96-131 of the loop body: buttons, edge dispatch, time. *)
Definition loop_input : M unit :=
  poll_buttons ;;
  handle_play_pause ;;
  handle_reset ;;
  stopwatch_logic.

(** Lines 133-187 of the loop body: the four update blocks. *)
Definition loop_update : M unit :=
  ms <- gets gStopwatchMs ;;
  let currentSec := currentSec_of ms in
  let currentMin := currentMin_of ms in
  let currentHr := currentHr_of ms in
  let currentMS := ms in
  update_seconds currentSec currentMin currentHr currentMS ;;
  update_mins currentMin ;;
  update_hours currentHr ;;
  ms' <- gets gStopwatchMs ;;
  let currentMS := currentMS_of ms' in
  update_millis currentMS.

(** One iteration of [while (true)]. *)
Definition loop_body : M unit :=
  loop_input ;;
  loop_update.

Fixpoint iterate (n : nat) (c : M unit) : M unit :=
  match n with
  | O => ret tt
  | S n' => c ;; iterate n' c
  end.

(** [main] after [n] iterations of the loop, started on hardware [h]. *)
Definition main_run (n : nat) (h : Hw) : State :=
  exec (main_setup ;; iterate n loop_body) (boot h).

(* ====================================================================== *)
(** ** The splits and the time string as the specification words them *)
(* ====================================================================== *)

(** Section 4.4 of the specification: the derived splits. *)
Definition spec_hours (elapsed_ms : Z) : Z := elapsed_ms / 3600000.
Definition spec_minutes (elapsed_ms : Z) : Z := (elapsed_ms / 60000) mod 60.
Definition spec_seconds (elapsed_ms : Z) : Z := (elapsed_ms / 1000) mod 60.
Definition spec_millis (elapsed_ms : Z) : Z := elapsed_ms mod 1000.

(** Section 4.5 of the specification: ["%02u:%02u:%02u:%03u"] over the
    four splits. *)
Definition spec_time_string (elapsed_ms : Z) : string :=
  (fmt_0u 2 (spec_hours elapsed_ms) ++ ":" ++
   fmt_0u 2 (spec_minutes elapsed_ms) ++ ":" ++
   fmt_0u 2 (spec_seconds elapsed_ms) ++ ":" ++
   fmt_0u 3 (spec_millis elapsed_ms))%string.

(* ====================================================================== *)
(** ** Observations on a run *)
(* ====================================================================== *)

(** What a meter would read if it were queried in state [s]. *)
Definition meter_reading (m : State -> elapsedMillis) (s : State) : Z :=
  eval (elapsed_read m) s.

(** The meter was re-snapshotted by the last access to the counter: it
    reads zero until the counter moves. *)
Definition meter_zeroed (m : State -> elapsedMillis) (s : State) : Prop :=
  origin (m s) = hw_counter (hw s).

(** The state in which an iteration started in [s] reaches line 122. *)
Definition at_stopwatch_logic (s : State) : State :=
  exec (poll_buttons ;; handle_play_pause ;; handle_reset) s.

(** The milliseconds that the iteration started in [s] adds. *)
Definition iteration_delta (s : State) : Z :=
  let s1 := at_stopwatch_logic s in
  let delta := meter_reading stopwatchTick s1 in
  if gRunning s1 && (0 <? delta) then delta else 0.

(** Whether the iteration started in [s] consumes a press edge of the
    Reset button. *)
Definition reset_dispatched (s : State) : bool :=
  pressedEdge (btnReset (exec (poll_buttons ;; handle_play_pause) s)).

Fixpoint deltas (n : nat) (s : State) : list Z :=
  match n with
  | O => []
  | S n' => iteration_delta s :: deltas n' (exec loop_body s)
  end.

Fixpoint no_reset (n : nat) (s : State) : bool :=
  match n with
  | O => true
  | S n' => negb (reset_dispatched s) && no_reset n' (exec loop_body s)
  end.

Definition sum (l : list Z) : Z := fold_right Z.add 0 l.

(** The label invariant of the Play/Pause GUI button. *)
Definition label_ok (s : State) : Prop :=
  label (btnStart s) = if gRunning s then "PAUSE"%string else "PLAY"%string.

(** The calls of one [drawStopwatchScreen] and of one [drawButton]. *)
Definition drawStopwatchScreen_calls
    (currentSec : Z) (running : bool) : list GrCall :=
  [ GrContextForegroundSet (Clr ClrBlack);
    GrRectFill (mkRect 0 0 127 127);
    GrContextForegroundSet (Clr ClrCyan);
    GrStringDrawCentered "STOPWATCH" (-1) 64 15 false;
    GrContextForegroundSet (Clr (if running then ClrYellow else ClrOlive));
    GrStringDrawCentered (str_line240 currentSec) (-1) 64 50 false;
    GrStringDrawCentered (if running then "RUNNING" else "STOPPED")
      (-1) 64 40 false ].

Definition drawButton_calls (btn : MyButton) : list GrCall :=
  let rect := mkRect (btn_x btn) (btn_y btn)
                (btn_x btn + btn_w btn - 1) (btn_y btn + btn_h btn - 1) in
  [ GrContextForegroundSet (ClrU16 (if pressed btn then ClrBlack else ClrGray));
    GrRectFill rect;
    GrContextForegroundSet (Clr ClrBlack);
    GrRectDraw rect;
    GrContextForegroundSet (ClrU16 (if pressed btn then ClrWhite else ClrBlack));
    GrStringDrawCentered (label btn) (-1)
      (btn_x btn + Z.quot (btn_w btn) 2) (btn_y btn + Z.quot (btn_h btn) 2)
      false ].

(** The calls of one repaint (lines 144-151) decided in state [s]. *)
Definition frame_calls (currentSec : Z) (s : State) : list GrCall :=
  drawStopwatchScreen_calls currentSec (gRunning s)
  ++ [drawStopwatchScreen_declared currentSec (gRunning s)]
  ++ drawButton_calls (btnStart s)
  ++ drawButton_calls (guiBtnReset s)
  ++ [GrFlush].

(** The condition of line 140, and of the three blocks after it, on the
    state in which it is evaluated. *)
Definition repaint_due (current last : Z) (s : State) : bool :=
  negb (current =? last)
  || negb (Bool.eqb (gRunning s) (lastRunning s))
  || (DISPLAY_REFRESH_MS <=? meter_reading displayTick s).

(** The state after the Seconds block of an iteration whose input part
    ended in [s1]. *)
Definition after_seconds (s1 : State) : State :=
  let ms := gStopwatchMs s1 in
  exec (update_seconds (currentSec_of ms) (currentMin_of ms)
          (currentHr_of ms) ms) s1.

(** A press of S1 seen from the second tick on, 10 ms between two reads of
    the counter. *)
Definition hw_play : Hw :=
  mkHw 0 (repeat 1200000 100%nat) [false; true; true; true] [].

(** The stopwatch runs, one millisecond short of [2^32]; the counter
    moves by one millisecond before the next read. *)
Definition at_uint32_max : State :=
  set_gStopwatchMs UINT32_MAX
    (set_gRunning true (main_run 0 (mkHw 0 [0; 0; 0; 120000] [] []))).

(** The frame of a stopped stopwatch at zero with both buttons released:
    the statics of lines 26-28 and 40-41. *)
Definition power_on_frame : list GrCall :=
  frame_calls 0 (boot (mkHw 0 [] [] [])).

(** The time string of a frame: the text drawn centred at (64, 50). *)
Fixpoint time_string_drawn (l : list GrCall) : option string :=
  match l with
  | [] => None
  | GrStringDrawCentered text _ 64 50 _ :: _ => Some text
  | _ :: rest => time_string_drawn rest
  end.

(** The state word of a frame: the text drawn centred at (64, 40). *)
Fixpoint state_word_drawn (l : list GrCall) : option string :=
  match l with
  | [] => None
  | GrStringDrawCentered text _ 64 40 _ :: _ => Some text
  | _ :: rest => state_word_drawn rest
  end.

(** The label of the first GUI button of a frame: the text drawn centred
    in the rectangle of [btnStart], at (25, 94). *)
Fixpoint first_button_label_drawn (l : list GrCall) : option string :=
  match l with
  | [] => None
  | GrStringDrawCentered text _ 25 94 _ :: _ => Some text
  | _ :: rest => first_button_label_drawn rest
  end.

(** After [setupButtons] both buttons are configured with a 20 ms tick
    and a 30 ms window, with no edge pending. *)
Definition button_idle (b : Button) : Prop :=
  tickIntervalMs b = 20 /\ debounceMs b = 30 /\ count b = 0 /\
  pressedEdge b = false /\ releasedEdge b = false.

(* ====================================================================== *)
(** ** Further observations *)
(* ====================================================================== *)

(** Position and size of a GUI button. *)
Definition geometry (b : MyButton) : Z * Z * Z * Z :=
  (btn_x b, btn_y b, btn_w b, btn_h b).

(** What the loop is never meant to write: the clock setting, the timer
    scale, the place of both GUI buttons and the label of the second. *)
Definition config (s : State) : Z * Timer * (Z * Z * Z * Z) * (Z * Z * Z * Z) * string :=
  (gSystemClock s, timer s, geometry (btnStart s), geometry (guiBtnReset s),
   label (guiBtnReset s)).

(** The button lies on the 128 x 128 screen and is at least one pixel
    wide and high. *)
Definition on_screen (b : MyButton) : Prop :=
  0 <= btn_x b /\ 1 <= btn_w b /\ btn_x b + btn_w b <= 128 /\
  0 <= btn_y b /\ 1 <= btn_h b /\ btn_y b + btn_h b <= 128.

(** The number of iterations, among the first [n] started in [s], that
    repaint. *)
Fixpoint repaints (n : nat) (s : State) : nat :=
  match n with
  | O => O
  | S n' =>
      let s1 := exec loop_input s in
      ((if repaint_due (currentSec_of (gStopwatchMs s1)) (lastDisplayedSec s1) s1
        then 1 else 0)
       + repaints n' (exec loop_body s))%nat
  end.

(** The text that line 239 formats, before [snprintf] cuts it. *)
Definition text_line239 (currentHr currentMin currentSec currentMS : Z) : string :=
  (fmt_0u 2 currentHr ++ ":" ++ fmt_0u 2 currentMin ++ ":"
   ++ fmt_0u 2 currentSec ++ ":" ++ fmt_0u 2 currentMS)%string.

(** S1 is seen pressed from the second tick on, S2 from the fifth, 10 ms
    between two reads of the counter. *)
Definition hw_play_then_reset : Hw :=
  mkHw 0 (repeat 1200000 200%nat) [false; true; true; true]
    [false; false; false; false; true; true; true].

(** The stopwatch runs; 1.9 ms pass before the next read of the counter
    and another 0.5 ms before the one after. *)
Definition at_lagging : State :=
  set_gRunning true (main_run 0 (mkHw 0 [0; 0; 0; 228000; 60000] [] [])).

(** What the screen shows after the calls of a log: the time string and
    the state word of the frame drawn last. *)
Definition time_string_shown (l : list GrCall) : option string :=
  time_string_drawn (List.rev l).

Definition state_word_shown (l : list GrCall) : option string :=
  state_word_drawn (List.rev l).

(** What a state at a loop boundary carries from the iteration before
    it: the seconds and running caches are current and the configuration
    is the one [main] set up. *)
Definition boundary_ok (s : State) : Prop :=
  lastDisplayedSec s = gStopwatchMs s / 1000 /\
  lastRunning s = gRunning s /\
  config s = (120000000, mkTimer 120000, (0, 80, 50, 28), (60, 80, 50, 28),
              "RESET"%string).

(** The screen shows the seconds and the state of the model. *)
Definition screen_ok (s : State) : Prop :=
  time_string_shown (lcd s) = Some (str_line240 (gStopwatchMs s / 1000)) /\
  state_word_shown (lcd s)
    = Some (if gRunning s then "RUNNING" else "STOPPED")%string.

(* ====================================================================== *)
(** ** Two sentences of the specification, as they are worded *)
(* ====================================================================== *)

(** The milliseconds that pass between the last access to the counter
    before the edges of an iteration are dispatched (the poll block) and
    the reading of line 124: an upper bound of the time the stopwatch has
    been running when an iteration resumes it. *)
Definition ms_since_dispatch (s : State) : Z :=
  let s1 := at_stopwatch_logic s in
  ticks_to_ms (timer s1)
    (wrap32 (hw_counter (hw_advance (hw s1)) - hw_counter (hw s1))).

(** "No paused idle time is added on resume": an iteration that finds the
    stopwatch paused and resumes it adds no more than the time that has
    passed since the resume. *)
Definition claimed_no_idle_time_on_resume : Prop :=
  forall s : State,
    gRunning s = false -> gRunning (at_stopwatch_logic s) = true ->
    reset_dispatched s = false ->
    gStopwatchMs (exec loop_body s) <= gStopwatchMs s + ms_since_dispatch s.

(** "Repaint if the derived seconds split changed since last paint, or
    running changed since last paint, or the display meter reached
    DISPLAY_REFRESH_MS", on the state [s1] in which line 140 is
    evaluated; the seconds split is the one of section 4.4, and
    [last_painted_seconds] says how the seconds of the last paint are
    read off the state. *)
Definition claimed_repaint_condition
    (last_painted_seconds : State -> Z) (s1 : State) : Prop :=
  spec_seconds (gStopwatchMs s1) <> last_painted_seconds s1 \/
  gRunning s1 <> lastRunning s1 \/
  DISPLAY_REFRESH_MS <= meter_reading displayTick s1.

(** S1 is seen pressed from the second tick on; 7 ms pass between two
    reads of the counter, except that 30 s pass, with the stopwatch still
    paused, before the poll of the third iteration, and nothing between
    that poll and line 124 of the same iteration. *)
Definition hw_idle_resume : Hw :=
  mkHw 0
    ([0; 0; 0] ++ repeat 840000 13%nat ++ [3600000000; 0; 0]
     ++ repeat 840000 20%nat)
    [false; true; true] [].

(** S1 is pressed, released and pressed again, then S2 is pressed; 7 ms
    pass between two reads of the counter, except for two stretches of
    30 s while the stopwatch runs. *)
Definition hw_minute_then_reset : Hw :=
  mkHw 0
    ([0; 0; 0] ++ repeat 840000 21%nat ++ [3600000000]
     ++ repeat 840000 7%nat ++ [3600000000] ++ repeat 840000 200%nat)
    [false; true; true; false; false; true; true]
    [false; false; false; false; false; false; false; true; true].

(** The 24-bit RGB values that grlib.h gives the six colours (the header
    is not among the sources). *)
Definition Color_value (c : Color) : Z :=
  match c with
  | ClrBlack => 0x000000
  | ClrCyan => 0x00FFFF
  | ClrYellow => 0xFFFF00
  | ClrOlive => 0x808000
  | ClrGray => 0x808080
  | ClrWhite => 0xFFFFFF
  end.

(** The value that reaches [GrContextForegroundSet]: the constant itself,
    or what is left of it in the [uint16_t] local of lines 251-252. *)
Definition color_passed (a : ColorArg) : Z :=
  match a with
  | Clr c => Color_value c
  | ClrU16 c => Color_value c mod 2 ^ 16
  end.

(* ====================================================================== *)
(** ** Tactics *)
(* ====================================================================== *)

(** Unfolds the statements of the program down to state transformers. *)
Ltac run_stmt :=
  cbv beta iota zeta delta
    [exec eval bind ret gets modify when orelse gr
     onPlayPauseClick onPlayPauseRelease onResetClick onResetRelease
     Button_wasPressed Button_wasReleased Button_tick Button_begin
     Button_setTickIntervalMs Button_setDebounceMs gpio_read
     elapsed_read elapsed_ge elapsed_zero elapsedMillis_new now_ticks
     handle_play_pause handle_reset poll_buttons stopwatch_logic
     update_due update_seconds update_mins update_hours update_millis
     drawStopwatchScreen drawButton GrFlush_defined
     hw lcd gSystemClock gStopwatchMs gRunning btnStart guiBtnReset
     btnPlayPause btnReset timer buttonTick displayTick stopwatchTick
     lastDisplayedSec lastDisplayedMin lastDisplayedHr lastDisplayedMS
     lastRunning
     set_hw set_lcd set_gSystemClock set_gStopwatchMs set_gRunning
     set_btnStart set_guiBtnReset set_btnPlayPause set_btnReset set_timer
     set_buttonTick set_displayTick set_stopwatchTick
     set_lastDisplayedSec set_lastDisplayedMin set_lastDisplayedHr
     set_lastDisplayedMS set_lastRunning
     label pressed set_label set_pressed
     pin tickIntervalMs debounceMs lastLevel stableLevel count
     pressedEdge releasedEdge origin fst snd].

(** Case analysis on every test a statement makes. *)
Ltac split_tests :=
  repeat (match goal with
          | |- context [match ?x with _ => _ end] =>
              lazymatch x with
              | context [match _ with _ => _ end] => fail
              | _ => destruct x eqn:?
              end
          end; run_stmt).

Ltac frame_stmt :=
  run_stmt; split_tests; repeat split; solve [reflexivity | congruence].

(* ====================================================================== *)
(** ** Reasoning about statements *)
(* ====================================================================== *)

Lemma exec_bind {A B : Type} (c : M A) (k : A -> M B) (s : State) :
  exec (bind c k) s = exec (k (eval c s)) (exec c s).
Proof. unfold exec, eval, bind. destruct (c s); reflexivity. Qed.

Lemma exec_iterate_succ (n : nat) (c : M unit) (s : State) :
  exec (iterate (S n) c) s = exec c (exec (iterate n c) s).
Proof.
  revert s. induction n as [|n IH]; intros s.
  - cbn [iterate]. rewrite exec_bind. reflexivity.
  - change (iterate (S (S n)) c) with (c ;; iterate (S n) c).
    rewrite exec_bind, IH.
    change (iterate (S n) c) with (c ;; iterate n c).
    rewrite exec_bind. reflexivity.
Qed.

Lemma main_run_succ (n : nat) (h : Hw) :
  main_run (S n) h = exec loop_body (main_run n h).
Proof.
  unfold main_run. rewrite !exec_bind. apply exec_iterate_succ.
Qed.

(* ====================================================================== *)
(** ** Reset and play/pause (C5, C6) *)
(* ====================================================================== *)

Lemma handle_reset_ms (s : State) :
  gStopwatchMs (exec handle_reset s)
  = if pressedEdge (btnReset s) then 0 else gStopwatchMs s.
Proof.
  run_stmt.
  destruct s as [? ? ? ? ? ? ? ? [? ? ? ? ? ? pe re] ? ? ? ? ? ? ? ? ?].
  destruct pe, re; reflexivity.
Qed.

(** What each block of the loop body leaves alone. *)

Lemma poll_buttons_frame (s : State) :
  let s' := exec poll_buttons s in
  lcd s' = lcd s /\ gStopwatchMs s' = gStopwatchMs s /\
  gRunning s' = gRunning s /\ btnStart s' = btnStart s /\
  timer s' = timer s /\ stopwatchTick s' = stopwatchTick s /\
  displayTick s' = displayTick s /\
  lastDisplayedSec s' = lastDisplayedSec s /\ lastRunning s' = lastRunning s.
Proof. frame_stmt. Qed.

Lemma handle_play_pause_frame (s : State) :
  let s' := exec handle_play_pause s in
  hw s' = hw s /\ lcd s' = lcd s /\ gStopwatchMs s' = gStopwatchMs s /\
  btnReset s' = btnReset s /\
  timer s' = timer s /\ stopwatchTick s' = stopwatchTick s /\
  displayTick s' = displayTick s /\
  lastDisplayedSec s' = lastDisplayedSec s /\ lastRunning s' = lastRunning s.
Proof. frame_stmt. Qed.

Lemma handle_reset_frame (s : State) :
  let s' := exec handle_reset s in
  hw s' = hw s /\ lcd s' = lcd s /\
  gRunning s' = gRunning s /\ btnStart s' = btnStart s /\
  timer s' = timer s /\ stopwatchTick s' = stopwatchTick s /\
  displayTick s' = displayTick s /\
  lastDisplayedSec s' = lastDisplayedSec s /\ lastRunning s' = lastRunning s.
Proof. frame_stmt. Qed.

Lemma stopwatch_logic_frame (s : State) :
  let s' := exec stopwatch_logic s in
  lcd s' = lcd s /\
  gRunning s' = gRunning s /\ btnStart s' = btnStart s /\
  btnPlayPause s' = btnPlayPause s /\ btnReset s' = btnReset s /\
  timer s' = timer s /\ displayTick s' = displayTick s /\
  lastDisplayedSec s' = lastDisplayedSec s /\ lastRunning s' = lastRunning s.
Proof. frame_stmt. Qed.

Lemma handle_play_pause_running (s : State) :
  gRunning (exec handle_play_pause s)
  = if pressedEdge (btnPlayPause s) then negb (gRunning s) else gRunning s.
Proof. frame_stmt. Qed.

(* ---------------------------------------------------------------------- *)

(** C5. For every state, [onResetClick] sets the elapsed milliseconds to
    zero and leaves the running flag as it was; a second reset changes
    nothing more.  In the loop, this is what a consumed press edge of the
    Reset button does to the elapsed time and the running flag (lines
    113-116); without the edge both are left alone. *)
Theorem reset_zeroes_elapsed_keeps_running (s : State) :
  gStopwatchMs (exec onResetClick s) = 0 /\
  gRunning (exec onResetClick s) = gRunning s /\
  exec onResetClick (exec onResetClick s) = exec onResetClick s /\
  gStopwatchMs (exec handle_reset s)
    = (if pressedEdge (btnReset s) then gStopwatchMs (exec onResetClick s)
       else gStopwatchMs s) /\
  gRunning (exec handle_reset s) = gRunning s.
Proof.
  repeat split.
  - rewrite handle_reset_ms. destruct (pressedEdge (btnReset s)); reflexivity.
  - apply (handle_reset_frame s).
Qed.

(** C6. For every state, [onPlayPauseClick] flips the running flag and
    leaves the elapsed milliseconds as they were.  In the loop, a consumed
    press edge of the Play/Pause button flips the flag exactly once (lines
    104-107); no edge leaves it alone; the elapsed time is untouched in
    both cases. *)
Theorem toggle_flips_running_keeps_elapsed (s : State) :
  gRunning (exec onPlayPauseClick s) = negb (gRunning s) /\
  gStopwatchMs (exec onPlayPauseClick s) = gStopwatchMs s /\
  gRunning (exec handle_play_pause s)
    = (if pressedEdge (btnPlayPause s)
       then gRunning (exec onPlayPauseClick s) else gRunning s) /\
  gStopwatchMs (exec handle_play_pause s) = gStopwatchMs s.
Proof.
  repeat split.
  - rewrite handle_play_pause_running.
    destruct (pressedEdge (btnPlayPause s)); reflexivity.
  - apply (handle_play_pause_frame s).
Qed.

Lemma update_seconds_frame (sec mn hr ms : Z) (s : State) :
  let s' := exec (update_seconds sec mn hr ms) s in
  gStopwatchMs s' = gStopwatchMs s /\ gRunning s' = gRunning s /\
  btnStart s' = btnStart s /\ btnPlayPause s' = btnPlayPause s /\
  btnReset s' = btnReset s /\ timer s' = timer s /\
  stopwatchTick s' = stopwatchTick s.
Proof. frame_stmt. Qed.

Lemma update_mins_frame (mn : Z) (s : State) :
  let s' := exec (update_mins mn) s in
  lcd s' = lcd s /\ gStopwatchMs s' = gStopwatchMs s /\
  gRunning s' = gRunning s /\ btnStart s' = btnStart s /\
  btnPlayPause s' = btnPlayPause s /\ btnReset s' = btnReset s /\
  timer s' = timer s /\ stopwatchTick s' = stopwatchTick s /\
  lastDisplayedSec s' = lastDisplayedSec s.
Proof. frame_stmt. Qed.

Lemma update_hours_frame (hr : Z) (s : State) :
  let s' := exec (update_hours hr) s in
  lcd s' = lcd s /\ gStopwatchMs s' = gStopwatchMs s /\
  gRunning s' = gRunning s /\ btnStart s' = btnStart s /\
  btnPlayPause s' = btnPlayPause s /\ btnReset s' = btnReset s /\
  timer s' = timer s /\ stopwatchTick s' = stopwatchTick s /\
  lastDisplayedSec s' = lastDisplayedSec s.
Proof. frame_stmt. Qed.

Lemma update_millis_frame (ms : Z) (s : State) :
  let s' := exec (update_millis ms) s in
  lcd s' = lcd s /\ gStopwatchMs s' = gStopwatchMs s /\
  gRunning s' = gRunning s /\ btnStart s' = btnStart s /\
  btnPlayPause s' = btnPlayPause s /\ btnReset s' = btnReset s /\
  timer s' = timer s /\ stopwatchTick s' = stopwatchTick s /\
  lastDisplayedSec s' = lastDisplayedSec s.
Proof. frame_stmt. Qed.

(** The iteration, block after block. *)

Lemma at_stopwatch_logic_eq (s : State) :
  at_stopwatch_logic s
  = exec handle_reset (exec handle_play_pause (exec poll_buttons s)).
Proof. unfold at_stopwatch_logic. rewrite !exec_bind. reflexivity. Qed.

Lemma loop_input_eq (s : State) :
  exec loop_input s = exec stopwatch_logic (at_stopwatch_logic s).
Proof.
  rewrite at_stopwatch_logic_eq. unfold loop_input.
  rewrite !exec_bind. reflexivity.
Qed.

Lemma loop_update_eq (s1 : State) :
  exec loop_update s1
  = let s2 := after_seconds s1 in
    let s3 := exec (update_mins (currentMin_of (gStopwatchMs s1))) s2 in
    let s4 := exec (update_hours (currentHr_of (gStopwatchMs s1))) s3 in
    exec (update_millis (currentMS_of (gStopwatchMs s4))) s4.
Proof.
  unfold loop_update, after_seconds. rewrite !exec_bind. reflexivity.
Qed.

Lemma loop_body_eq (s : State) :
  exec loop_body s = exec loop_update (exec loop_input s).
Proof. unfold loop_body. rewrite exec_bind. reflexivity. Qed.

Lemma loop_update_frame (s : State) :
  let s' := exec loop_update s in
  gStopwatchMs s' = gStopwatchMs s /\ gRunning s' = gRunning s /\
  btnStart s' = btnStart s /\ btnPlayPause s' = btnPlayPause s /\
  btnReset s' = btnReset s /\ timer s' = timer s /\
  stopwatchTick s' = stopwatchTick s.
Proof.
  cbv zeta. rewrite loop_update_eq. cbv zeta. unfold after_seconds.
  set (ms := gStopwatchMs s).
  set (s2 := exec (update_seconds _ _ _ _) s).
  set (s3 := exec (update_mins _) s2).
  set (s4 := exec (update_hours _) s3).
  pose proof (update_seconds_frame (currentSec_of ms) (currentMin_of ms)
                (currentHr_of ms) ms s) as H2.
  pose proof (update_mins_frame (currentMin_of ms) s2) as H3.
  pose proof (update_hours_frame (currentHr_of ms) s3) as H4.
  pose proof (update_millis_frame (currentMS_of (gStopwatchMs s4)) s4) as H5.
  cbv zeta in H2, H3, H4, H5. fold s2 in H2. fold s3 in H3. fold s4 in H4.
  clearbody s2 s3 s4. subst ms.
  destruct H2 as (? & ? & ? & ? & ? & ? & ?).
  destruct H3 as (_ & ? & ? & ? & ? & ? & ? & ? & _).
  destruct H4 as (_ & ? & ? & ? & ? & ? & ? & ? & _).
  destruct H5 as (_ & ? & ? & ? & ? & ? & ? & ? & _).
  repeat split; congruence.
Qed.

(* ====================================================================== *)
(** ** The label of the Play/Pause GUI button (C7) *)
(* ====================================================================== *)

Lemma onPlayPauseClick_label_ok (s : State) :
  label_ok (exec onPlayPauseClick s).
Proof.
  unfold label_ok. run_stmt. reflexivity.
Qed.

Lemma handle_play_pause_label_ok (s : State) :
  label_ok s -> label_ok (exec handle_play_pause s).
Proof.
  unfold label_ok. run_stmt. intros H.
  destruct s as [? ? ? ? r ? ? [? ? ? ? ? ? pe re] ? ? ? ? ? ? ? ? ? ?].
  destruct pe, re; try exact H; destruct r; reflexivity.
Qed.

Lemma label_ok_frame (s s' : State) :
  gRunning s' = gRunning s -> btnStart s' = btnStart s ->
  label_ok s -> label_ok s'.
Proof. unfold label_ok. intros -> ->. exact (fun H => H). Qed.

Lemma loop_input_label_ok (s : State) :
  label_ok s -> label_ok (exec loop_input s).
Proof.
  intros H. rewrite loop_input_eq, at_stopwatch_logic_eq.
  apply (label_ok_frame (exec handle_reset
           (exec handle_play_pause (exec poll_buttons s))));
    try apply stopwatch_logic_frame.
  apply (label_ok_frame (exec handle_play_pause (exec poll_buttons s)));
    try apply handle_reset_frame.
  apply handle_play_pause_label_ok.
  apply (label_ok_frame s); try apply poll_buttons_frame.
  exact H.
Qed.

Lemma loop_body_label_ok (s : State) :
  label_ok s -> label_ok (exec loop_body s).
Proof.
  intros H. rewrite loop_body_eq.
  apply (label_ok_frame (exec loop_input s)); try apply loop_update_frame.
  apply loop_input_label_ok, H.
Qed.

(** The setup code of [main], run on the static initialisers. *)
Lemma main_setup_post (h : Hw) :
  let s := main_run 0 h in
  gStopwatchMs s = 0 /\ gRunning s = false /\
  btnStart s = mkMyButton 0 80 50 28 "PLAY" false /\
  guiBtnReset s = mkMyButton 60 80 50 28 "RESET" false /\
  timer s = mkTimer 120000 /\
  lastDisplayedSec s = UINT32_MAX /\ lastRunning s = true /\
  lcd s = [ Crystalfontz128x128_Init; Crystalfontz128x128_SetOrientation_UP;
            GrContextInit; GrContextFontSet_Fixed6x8;
            GrContextForegroundSet (Clr ClrBlack);
            GrRectFill (mkRect 0 0 127 127) ].
Proof.
  unfold main_run, main_setup, initializeDisplay, configureTimer,
    setupButtons, Timer_begin, iterate, boot.
  run_stmt. split_tests. repeat split; reflexivity.
Qed.

(** C7. In every state the program reaches at a loop boundary, and in
    every state in which the loop decides to repaint (after the edges of
    the iteration were dispatched), the label of the Play/Pause GUI button
    is "PAUSE" when [gRunning] is true and "PLAY" when it is false. *)
Theorem play_pause_label_follows_running (n : nat) (h : Hw) :
  label_ok (main_run n h) /\ label_ok (exec loop_input (main_run n h)).
Proof.
  assert (H : label_ok (main_run n h)).
  { induction n as [|n IH].
    - unfold label_ok.
      destruct (main_setup_post h) as (_ & -> & -> & _). reflexivity.
    - rewrite main_run_succ. apply loop_body_label_ok, IH. }
  split; [exact H | apply loop_input_label_ok, H].
Qed.

(* ====================================================================== *)
(** ** Time accumulation (C1, C9) *)
(* ====================================================================== *)

Lemma wrap32_range (x : Z) : is_u32 (wrap32 x).
Proof. unfold is_u32, wrap32. apply Z.mod_pos_bound. lia. Qed.

Lemma wrap32_small (x : Z) : is_u32 x -> wrap32 x = x.
Proof. unfold is_u32, wrap32. intros H. apply Z.mod_small. exact H. Qed.

Lemma meter_reading_eq (m : State -> elapsedMillis) (s : State) :
  meter_reading m s
  = ticks_to_ms (timer s)
      (wrap32 (hw_counter (hw_advance (hw s)) - origin (m s))).
Proof. unfold meter_reading. run_stmt. reflexivity. Qed.

(** A meter never reads [2^32] milliseconds or more. *)
Lemma meter_reading_lt (m : State -> elapsedMillis) (s : State) :
  meter_reading m s < 2 ^ 32.
Proof.
  rewrite meter_reading_eq. unfold ticks_to_ms.
  set (x := wrap32 _). set (t := ticksPerMs _).
  assert (Hx : 0 <= x < 2 ^ 32) by apply wrap32_range.
  destruct (Z.lt_trichotomy t 0) as [Ht | [Ht | Ht]].
  - pose proof (Z.mod_neg_bound x t Ht) as Hm.
    pose proof (Z.div_mod x t ltac:(lia)) as Hd. nia.
  - subst t. rewrite Ht, Z.div_0_r. lia.
  - assert (x / t <= x) by (apply Z.div_le_upper_bound; nia). lia.
Qed.

Lemma stopwatch_logic_ms (s : State) :
  gStopwatchMs (exec stopwatch_logic s)
  = if gRunning s && (0 <? meter_reading stopwatchTick s)
    then wrap32 (gStopwatchMs s + meter_reading stopwatchTick s)
    else gStopwatchMs s.
Proof.
  rewrite meter_reading_eq. run_stmt.
  destruct s as [? ? ? ? r ? ? ? ? ? ? ? ? ? ? ? ? ?]. destruct r; [|reflexivity].
  match goal with |- context [0 <? ?x] => destruct (0 <? x) end;
    reflexivity.
Qed.

Lemma stopwatch_logic_meter (s : State) :
  let s' := exec stopwatch_logic s in
  if gRunning s && negb (0 <? meter_reading stopwatchTick s)
  then stopwatchTick s' = stopwatchTick s
  else meter_zeroed stopwatchTick s'.
Proof.
  unfold meter_zeroed. rewrite meter_reading_eq. run_stmt.
  destruct s as [? ? ? ? r ? ? ? ? ? ? ? ? ? ? ? ? ?]. destruct r; [|reflexivity].
  match goal with |- context [0 <? ?x] => destruct (0 <? x) end;
    reflexivity.
Qed.

Lemma stopwatch_logic_u32 (s : State) :
  is_u32 (gStopwatchMs s) -> is_u32 (gStopwatchMs (exec stopwatch_logic s)).
Proof.
  intros H. rewrite stopwatch_logic_ms.
  destruct (gRunning s && _); [apply wrap32_range | exact H].
Qed.

Lemma at_stopwatch_logic_ms (s : State) :
  gStopwatchMs (at_stopwatch_logic s)
  = if reset_dispatched s then 0 else gStopwatchMs s.
Proof.
  rewrite at_stopwatch_logic_eq, handle_reset_ms.
  unfold reset_dispatched. rewrite !exec_bind.
  destruct (handle_play_pause_frame (exec poll_buttons s))
    as (_ & _ & -> & _).
  destruct (poll_buttons_frame s) as (_ & -> & _).
  reflexivity.
Qed.

Lemma loop_input_u32 (s : State) :
  is_u32 (gStopwatchMs s) -> is_u32 (gStopwatchMs (exec loop_input s)).
Proof.
  intros H. rewrite loop_input_eq. apply stopwatch_logic_u32.
  rewrite at_stopwatch_logic_ms.
  destruct (reset_dispatched s); [unfold is_u32; lia | exact H].
Qed.

Lemma loop_body_u32 (s : State) :
  is_u32 (gStopwatchMs s) -> is_u32 (gStopwatchMs (exec loop_body s)).
Proof.
  intros H. rewrite loop_body_eq.
  destruct (loop_update_frame (exec loop_input s)) as (-> & _).
  apply loop_input_u32, H.
Qed.

(** One iteration: the elapsed time it starts from (zero after a reset)
    plus the delta of the iteration, modulo [2^32]. *)
Lemma loop_body_ms (s : State) :
  is_u32 (gStopwatchMs s) ->
  gStopwatchMs (exec loop_body s)
  = wrap32 ((if reset_dispatched s then 0 else gStopwatchMs s)
            + iteration_delta s).
Proof.
  intros H. rewrite loop_body_eq.
  destruct (loop_update_frame (exec loop_input s)) as (-> & _).
  rewrite loop_input_eq, stopwatch_logic_ms, at_stopwatch_logic_ms.
  unfold iteration_delta. cbv zeta.
  destruct (gRunning (at_stopwatch_logic s)
            && (0 <? meter_reading stopwatchTick (at_stopwatch_logic s)));
    [reflexivity|].
  rewrite Z.add_0_r. symmetry. apply wrap32_small.
  destruct (reset_dispatched s); [unfold is_u32; lia | exact H].
Qed.

Lemma wrap32_add_l (a b : Z) : wrap32 (wrap32 a + b) = wrap32 (a + b).
Proof. unfold wrap32. apply Zplus_mod_idemp_l. Qed.

(** Over [n] iterations without a reset, the elapsed time grows by the
    sum of the deltas of the iterations, modulo [2^32]. *)
Lemma iterate_ms (n : nat) (s : State) :
  is_u32 (gStopwatchMs s) -> no_reset n s = true ->
  gStopwatchMs (exec (iterate n loop_body) s)
  = wrap32 (gStopwatchMs s + sum (deltas n s)).
Proof.
  revert s. induction n as [|n IH]; intros s Hu Hn.
  - cbn. rewrite Z.add_0_r. symmetry. apply wrap32_small, Hu.
  - cbn [no_reset] in Hn. apply andb_prop in Hn. destruct Hn as [Hr Hn].
    apply negb_true_iff in Hr.
    change (iterate (S n) loop_body) with (loop_body ;; iterate n loop_body).
    rewrite exec_bind. rewrite IH by (auto using loop_body_u32).
    rewrite loop_body_ms by exact Hu. rewrite Hr.
    cbn [deltas sum fold_right]. rewrite wrap32_add_l.
    f_equal. fold (sum (deltas n (exec loop_body s))). lia.
Qed.

(** A paused iteration adds nothing. *)
Lemma iteration_delta_paused (s : State) :
  gRunning (at_stopwatch_logic s) = false -> iteration_delta s = 0.
Proof. unfold iteration_delta. cbv zeta. intros ->. reflexivity. Qed.

Lemma deltas_nonneg (n : nat) (s : State) : 0 <= sum (deltas n s).
Proof.
  revert s. induction n as [|n IH]; intros s; cbn [deltas sum fold_right].
  - lia.
  - specialize (IH (exec loop_body s)). unfold sum in IH.
    assert (0 <= iteration_delta s); [|lia].
    unfold iteration_delta. cbv zeta.
    destruct (gRunning _); cbn [andb]; [|lia].
    destruct (Z.ltb_spec 0 (meter_reading stopwatchTick (at_stopwatch_logic s)));
      lia.
Qed.

Lemma main_run_u32 (n : nat) (h : Hw) : is_u32 (gStopwatchMs (main_run n h)).
Proof.
  induction n as [|n IH].
  - destruct (main_setup_post h) as (-> & _). unfold is_u32. lia.
  - rewrite main_run_succ. apply loop_body_u32, IH.
Qed.

(** After a paused iteration the stopwatch meter counts from line 130 of
    that iteration: nothing of the next iteration restarts it before
    line 124 reads it. *)
Lemma reading_after_paused_iteration (s0 : State) :
  gRunning (at_stopwatch_logic s0) = false ->
  let s1 := at_stopwatch_logic (exec loop_body s0) in
  origin (stopwatchTick s1) = hw_counter (hw (exec loop_input s0)) /\
  meter_reading stopwatchTick s1
  = ticks_to_ms (timer s1)
      (wrap32 (hw_counter (hw_advance (hw s1))
               - hw_counter (hw (exec loop_input s0)))).
Proof.
  intros P. cbv zeta.
  assert (O : origin (stopwatchTick (at_stopwatch_logic (exec loop_body s0)))
              = hw_counter (hw (exec loop_input s0))).
  { rewrite at_stopwatch_logic_eq.
    destruct (handle_reset_frame
                (exec handle_play_pause (exec poll_buttons (exec loop_body s0))))
      as (_ & _ & _ & _ & _ & -> & _).
    destruct (handle_play_pause_frame (exec poll_buttons (exec loop_body s0)))
      as (_ & _ & _ & _ & _ & -> & _).
    destruct (poll_buttons_frame (exec loop_body s0))
      as (_ & _ & _ & _ & _ & -> & _).
    rewrite loop_body_eq.
    destruct (loop_update_frame (exec loop_input s0))
      as (_ & _ & _ & _ & _ & _ & ->).
    rewrite loop_input_eq.
    pose proof (stopwatch_logic_meter (at_stopwatch_logic s0)) as M.
    cbv zeta in M. rewrite P in M. exact M. }
  split; [exact O |]. rewrite meter_reading_eq, O. reflexivity.
Qed.

(** C1 (amended).  Lines 122-131, for every state [s] in which they are
    entered, with [delta] the reading of the stopwatch meter there: when
    the stopwatch runs and [delta > 0] the elapsed time becomes
    [gStopwatchMs + delta] (in [uint32_t] arithmetic) and the meter is
    re-snapshotted; when it runs and [delta = 0] nothing changes; when it
    is paused the elapsed time is unchanged and the meter is
    re-snapshotted.  Over any [n] iterations in which no reset is
    dispatched, the elapsed time grows by the sum of the deltas of the
    iterations; when the sum stays below [2^32] this is the exact sum.
    After a paused iteration the meter counts from line 130 of that
    iteration: the reading of line 124 in the next iteration is the time
    since then, so a resume adds none of the pause before that point and
    all of the time after it, including what passes before the press is
    dispatched. *)
Theorem elapsed_accumulates_deltas :
  (forall s : State,
     let delta := meter_reading stopwatchTick s in
     let s' := exec stopwatch_logic s in
     gStopwatchMs s'
       = (if gRunning s && (0 <? delta)
          then wrap32 (gStopwatchMs s + delta) else gStopwatchMs s) /\
     (if gRunning s && negb (0 <? delta)
      then stopwatchTick s' = stopwatchTick s
      else meter_zeroed stopwatchTick s')) /\
  (forall (n : nat) (s : State),
     is_u32 (gStopwatchMs s) -> no_reset n s = true ->
     gStopwatchMs (exec (iterate n loop_body) s)
       = wrap32 (gStopwatchMs s + sum (deltas n s)) /\
     (gStopwatchMs s + sum (deltas n s) < 2 ^ 32 ->
      gStopwatchMs (exec (iterate n loop_body) s)
        = gStopwatchMs s + sum (deltas n s))) /\
  (forall s0 : State,
     gRunning (at_stopwatch_logic s0) = false ->
     let s1 := at_stopwatch_logic (exec loop_body s0) in
     origin (stopwatchTick s1) = hw_counter (hw (exec loop_input s0)) /\
     meter_reading stopwatchTick s1
     = ticks_to_ms (timer s1)
         (wrap32 (hw_counter (hw_advance (hw s1))
                  - hw_counter (hw (exec loop_input s0))))).
Proof.
  split; [|split].
  - intros s. cbv zeta. split.
    + apply stopwatch_logic_ms.
    + apply stopwatch_logic_meter.
  - intros n s Hu Hn. pose proof (iterate_ms n s Hu Hn) as H.
    split; [exact H|]. intros Hlt. rewrite H. apply wrap32_small.
    pose proof (deltas_nonneg n s). unfold is_u32 in *. lia.
  - exact reading_after_paused_iteration.
Qed.

Lemma elapsed_accumulates_deltas_witness :
  is_u32 (gStopwatchMs (main_run 0 hw_play)) /\
  no_reset 3 (main_run 0 hw_play) = true /\
  gStopwatchMs (main_run 0 hw_play) + sum (deltas 3 (main_run 0 hw_play))
    < 2 ^ 32 /\
  gStopwatchMs (exec (iterate 3 loop_body) (main_run 0 hw_play)) = 0 + 140 /\
  gRunning (at_stopwatch_logic (main_run 1 hw_idle_resume)) = false /\
  meter_reading stopwatchTick (at_stopwatch_logic (main_run 2 hw_idle_resume))
    = 30028.
Proof.
  assert (Hu : is_u32 (gStopwatchMs (main_run 0 hw_play))).
  { vm_compute. split; [discriminate | reflexivity]. }
  assert (Hn : no_reset 3 (main_run 0 hw_play) = true).
  { vm_compute. reflexivity. }
  assert (Hs : gStopwatchMs (main_run 0 hw_play)
               + sum (deltas 3 (main_run 0 hw_play)) < 2 ^ 32).
  { vm_compute. reflexivity. }
  assert (Hp : gRunning (at_stopwatch_logic (main_run 1 hw_idle_resume)) = false).
  { vm_compute. reflexivity. }
  destruct elapsed_accumulates_deltas as (_ & Hrun & Hres).
  split; [exact Hu | split; [exact Hn | split; [exact Hs | split; [| split]]]].
  - destruct (Hrun 3%nat (main_run 0 hw_play) Hu Hn) as (_ & Hexact).
    rewrite (Hexact Hs). vm_compute. reflexivity.
  - exact Hp.
  - rewrite main_run_succ.
    destruct (Hres (main_run 1 hw_idle_resume) Hp) as (_ & ->).
    vm_compute. reflexivity.
Defined.

(** C1 as it is worded fails on its last clause.  On [hw_idle_resume] the
    second iteration ends paused at zero; 30 s then pass before the poll
    of the third iteration, which dispatches the press; no tick passes
    between that poll and line 124; yet the iteration ends at 30028 ms,
    all of them time that passed while the stopwatch was paused. *)
Lemma idle_time_is_added_on_resume :
  gRunning (main_run 2 hw_idle_resume) = false /\
  gStopwatchMs (main_run 2 hw_idle_resume) = 0 /\
  gRunning (at_stopwatch_logic (main_run 2 hw_idle_resume)) = true /\
  ms_since_dispatch (main_run 2 hw_idle_resume) = 0 /\
  gStopwatchMs (main_run 3 hw_idle_resume) = 30028 /\
  ~ claimed_no_idle_time_on_resume.
Proof.
  assert (R : gRunning (main_run 2 hw_idle_resume) = false)
    by (vm_compute; reflexivity).
  assert (A : gRunning (at_stopwatch_logic (main_run 2 hw_idle_resume)) = true)
    by (vm_compute; reflexivity).
  split; [exact R | split; [vm_compute; reflexivity |]].
  split; [exact A | split; [vm_compute; reflexivity |]].
  split; [vm_compute; reflexivity |].
  intros C.
  assert (N : reset_dispatched (main_run 2 hw_idle_resume) = false)
    by (vm_compute; reflexivity).
  specialize (C (main_run 2 hw_idle_resume) R A N).
  vm_compute in C. apply C. reflexivity.
Qed.

(** C9. [gStopwatchMs] is a [uint32_t]: it lies in [0, 2^32) in every
    state the program reaches, and line 126 adds modulo [2^32].  Adding a
    delta that carries the sum to [2^32] or beyond leaves
    [gStopwatchMs + delta - 2^32], a smaller value than before, not the
    maximum [2^32 - 1].  [2^32] ms lie between 49.7 and 49.8 days. *)
Theorem elapsed_wraps_modulo_2_32 :
  (forall (n : nat) (h : Hw), is_u32 (gStopwatchMs (main_run n h))) /\
  (forall s : State,
     let delta := meter_reading stopwatchTick s in
     let s' := exec stopwatch_logic s in
     is_u32 (gStopwatchMs s) -> gRunning s = true -> 0 < delta ->
     gStopwatchMs s' = (gStopwatchMs s + delta) mod 2 ^ 32 /\
     (2 ^ 32 <= gStopwatchMs s + delta ->
      gStopwatchMs s' = gStopwatchMs s + delta - 2 ^ 32 /\
      gStopwatchMs s' < gStopwatchMs s /\
      gStopwatchMs s' <> UINT32_MAX)) /\
  497 * 8640000 <= UINT32_MAX + 1 < 498 * 8640000.
Proof.
  split; [exact main_run_u32 | split].
  - intros s delta s' Hu Hr Hd.
    assert (E : gStopwatchMs s' = (gStopwatchMs s + delta) mod 2 ^ 32).
    { subst s'. rewrite stopwatch_logic_ms. fold delta. rewrite Hr.
      apply Z.ltb_lt in Hd. rewrite Hd. reflexivity. }
    split; [exact E|]. intros Hc.
    pose proof (meter_reading_lt stopwatchTick s) as Hlt. fold delta in Hlt.
    assert (E2 : (gStopwatchMs s + delta) mod 2 ^ 32
                 = gStopwatchMs s + delta - 2 ^ 32).
    { symmetry. apply (Z.mod_unique _ _ 1); unfold is_u32 in Hu; lia. }
    rewrite E, E2. unfold is_u32 in Hu. unfold UINT32_MAX. lia.
  - unfold UINT32_MAX. lia.
Qed.

Lemma elapsed_wraps_modulo_2_32_witness :
  is_u32 (gStopwatchMs at_uint32_max) /\
  gRunning at_uint32_max = true /\
  0 < meter_reading stopwatchTick at_uint32_max /\
  2 ^ 32 <= gStopwatchMs at_uint32_max
            + meter_reading stopwatchTick at_uint32_max /\
  gStopwatchMs (exec stopwatch_logic at_uint32_max) <> UINT32_MAX.
Proof.
  assert (Hu : is_u32 (gStopwatchMs at_uint32_max)).
  { vm_compute. split; [discriminate | reflexivity]. }
  assert (Hr : gRunning at_uint32_max = true) by reflexivity.
  assert (Hd : 0 < meter_reading stopwatchTick at_uint32_max).
  { vm_compute. reflexivity. }
  assert (Hc : 2 ^ 32 <= gStopwatchMs at_uint32_max
                         + meter_reading stopwatchTick at_uint32_max).
  { vm_compute. discriminate. }
  split; [exact Hu | split; [exact Hr | split; [exact Hd | split; [exact Hc|]]]].
  destruct elapsed_wraps_modulo_2_32 as (_ & Hstep & _).
  destruct (Hstep at_uint32_max Hu Hr Hd) as (_ & Hwrap).
  destruct (Hwrap Hc) as (_ & _ & Hne). exact Hne.
Defined.

(* ====================================================================== *)
(** ** The repaint decision (C2, C10) *)
(* ====================================================================== *)

Lemma update_seconds_lcd (sec mn hr ms : Z) (s : State) :
  lcd (exec (update_seconds sec mn hr ms) s)
  = lcd s ++ (if repaint_due sec (lastDisplayedSec s) s
              then frame_calls sec s else []).
Proof.
  unfold repaint_due, frame_calls, drawStopwatchScreen_calls,
    drawButton_calls.
  rewrite meter_reading_eq. run_stmt.
  destruct s as [? l ? ? r ? ? ? ? ? ? ? ? lsec ? ? ? lr].
  destruct (sec =? lsec); cbn [negb orb]; run_stmt;
    [destruct (Bool.eqb r lr); cbn [negb orb]; run_stmt;
       [match goal with |- context [DISPLAY_REFRESH_MS <=? ?x] =>
          destruct (DISPLAY_REFRESH_MS <=? x) end; run_stmt | ] | ];
    rewrite <- ?app_assoc, ?app_nil_r; reflexivity.
Qed.

Lemma update_seconds_caches (sec mn hr ms : Z) (s : State) :
  let s' := exec (update_seconds sec mn hr ms) s in
  lastDisplayedSec s' = sec /\ lastRunning s' = gRunning s /\
  (if repaint_due sec (lastDisplayedSec s) s
   then meter_zeroed displayTick s'
   else displayTick s' = displayTick s).
Proof.
  unfold repaint_due, meter_zeroed. rewrite meter_reading_eq. run_stmt.
  destruct s as [? l ? ? r ? ? ? ? ? ? ? ? lsec ? ? ? lr].
  destruct (Z.eqb_spec sec lsec); cbn [negb orb]; run_stmt;
    [destruct (Bool.eqb_spec r lr); cbn [negb orb]; run_stmt;
       [match goal with |- context [DISPLAY_REFRESH_MS <=? ?x] =>
          destruct (DISPLAY_REFRESH_MS <=? x) end; run_stmt | ] | ];
    repeat split; congruence.
Qed.

Lemma update_mins_lastRunning (mn : Z) (s : State) :
  lastRunning s = gRunning s ->
  lastRunning (exec (update_mins mn) s) = gRunning s.
Proof. run_stmt. intros H. split_tests; assumption || reflexivity. Qed.

Lemma update_hours_lastRunning (hr : Z) (s : State) :
  lastRunning s = gRunning s ->
  lastRunning (exec (update_hours hr) s) = gRunning s.
Proof. run_stmt. intros H. split_tests; assumption || reflexivity. Qed.

Lemma update_millis_lastRunning (ms : Z) (s : State) :
  lastRunning s = gRunning s ->
  lastRunning (exec (update_millis ms) s) = gRunning s.
Proof. run_stmt. intros H. split_tests; assumption || reflexivity. Qed.

Lemma repaint_due_iff (current last : Z) (s : State) :
  repaint_due current last s = true <->
  current <> last \/ gRunning s <> lastRunning s \/
  DISPLAY_REFRESH_MS <= meter_reading displayTick s.
Proof.
  unfold repaint_due.
  destruct (Z.eqb_spec current last) as [E1 | E1];
    destruct (Bool.eqb_spec (gRunning s) (lastRunning s)) as [E2 | E2];
    destruct (Z.leb_spec DISPLAY_REFRESH_MS (meter_reading displayTick s))
      as [E3 | E3];
    cbn [negb orb]; split; intros H; try reflexivity; try discriminate;
    try tauto.
  destruct H as [H | [H | H]]; [tauto | tauto | lia].
Qed.

Lemma app_changes {A : Type} (l f : list A) : l ++ f <> l <-> f <> [].
Proof.
  split; intros H E; apply H.
  - subst f. apply app_nil_r.
  - apply (app_inv_head l). rewrite app_nil_r. exact E.
Qed.

Lemma frame_calls_not_nil (sec : Z) (s : State) : frame_calls sec s <> [].
Proof. discriminate. Qed.

Lemma loop_input_frame (s : State) :
  let s1 := exec loop_input s in
  lcd s1 = lcd s /\ timer s1 = timer s /\ displayTick s1 = displayTick s /\
  lastDisplayedSec s1 = lastDisplayedSec s /\ lastRunning s1 = lastRunning s.
Proof.
  cbv zeta. rewrite loop_input_eq, at_stopwatch_logic_eq.
  set (s1 := exec poll_buttons s).
  set (s2 := exec handle_play_pause s1).
  set (s3 := exec handle_reset s2).
  destruct (poll_buttons_frame s) as (? & _ & _ & _ & ? & _ & ? & ? & ?).
  destruct (handle_play_pause_frame s1) as (_ & ? & _ & _ & ? & _ & ? & ? & ?).
  destruct (handle_reset_frame s2) as (_ & ? & _ & _ & ? & _ & ? & ? & ?).
  destruct (stopwatch_logic_frame s3) as (? & _ & _ & _ & _ & ? & ? & ? & ?).
  fold s1 in H, H0, H1, H2, H3. fold s2 in H4, H5, H6, H7, H8.
  fold s3 in H9, H10, H11, H12, H13.
  clearbody s1 s2 s3. repeat split; congruence.
Qed.

(** The log, the caches and the display meter over one iteration: [s1] is
    the state in which line 140 is evaluated. *)
Lemma loop_body_repaint (s : State) :
  let s1 := exec loop_input s in
  let sec := currentSec_of (gStopwatchMs s1) in
  let s' := exec loop_body s in
  lcd s' = lcd s ++ (if repaint_due sec (lastDisplayedSec s1) s1
                     then frame_calls sec s1 else []) /\
  lastDisplayedSec s' = sec /\ lastRunning s' = gRunning s' /\
  (if repaint_due sec (lastDisplayedSec s1) s1
   then meter_zeroed displayTick (after_seconds s1)
   else displayTick (after_seconds s1) = displayTick s1).
Proof.
  cbv zeta. rewrite loop_body_eq.
  set (s1 := exec loop_input s).
  destruct (loop_input_frame s) as (Hl & _). fold s1 in Hl.
  destruct (loop_update_frame s1) as (_ & Hr & _).
  rewrite loop_update_eq in *. cbv zeta in *.
  set (ms := gStopwatchMs s1) in *.
  pose proof (update_seconds_lcd (currentSec_of ms) (currentMin_of ms)
                (currentHr_of ms) ms s1) as L2.
  pose proof (update_seconds_caches (currentSec_of ms) (currentMin_of ms)
                (currentHr_of ms) ms s1) as (C2 & R2 & D2).
  pose proof (update_seconds_frame (currentSec_of ms) (currentMin_of ms)
                (currentHr_of ms) ms s1) as (_ & G2 & _).
  change (exec (update_seconds (currentSec_of ms) (currentMin_of ms)
                  (currentHr_of ms) ms) s1)
    with (after_seconds s1) in L2, C2, R2, D2, G2.
  set (s2 := after_seconds s1) in *.
  set (s3 := exec (update_mins (currentMin_of ms)) s2) in *.
  set (s4 := exec (update_hours (currentHr_of ms)) s3) in *.
  set (s5 := exec (update_millis _) s4) in *.
  destruct (update_mins_frame (currentMin_of ms) s2)
    as (L3 & _ & G3 & _ & _ & _ & _ & _ & C3).
  destruct (update_hours_frame (currentHr_of ms) s3)
    as (L4 & _ & G4 & _ & _ & _ & _ & _ & C4).
  destruct (update_millis_frame (currentMS_of (gStopwatchMs s4)) s4)
    as (L5 & _ & G5 & _ & _ & _ & _ & _ & C5).
  fold s3 in L3, G3, C3. fold s4 in L4, G4, C4. fold s5 in L5, G5, C5.
  assert (R3 : lastRunning s3 = gRunning s2)
    by (apply update_mins_lastRunning; congruence).
  assert (R4 : lastRunning s4 = gRunning s3)
    by (apply update_hours_lastRunning; congruence).
  assert (R5 : lastRunning s5 = gRunning s4)
    by (apply update_millis_lastRunning; congruence).
  repeat split; first [exact D2 | congruence].
Qed.

(** C2 (amended).  For every iteration of the loop, with [s1] the state
    in which line 140 is evaluated: the iteration calls the drawing
    functions if and only if the seconds value of line 135,
    [gStopwatchMs / 1000], differs from [lastDisplayedSec], or [gRunning]
    differs from [lastRunning], or the display meter reads at least
    [DISPLAY_REFRESH_MS] = 50 where line 142 queries it.  When it does,
    the calls are those of one frame, the display meter is re-snapshotted
    by the block, and at the end of the iteration [lastDisplayedSec] holds
    that seconds value and [lastRunning] holds [gRunning]. *)
Theorem repaint_iff_changed_or_refresh_due (s : State) :
  let s1 := exec loop_input s in
  let sec := gStopwatchMs s1 / 1000 in
  let s' := exec loop_body s in
  DISPLAY_REFRESH_MS = 50 /\
  (lcd s' <> lcd s <->
   sec <> lastDisplayedSec s1 \/ gRunning s1 <> lastRunning s1 \/
   DISPLAY_REFRESH_MS <= meter_reading displayTick s1) /\
  (lcd s' <> lcd s ->
   lcd s' = lcd s ++ frame_calls sec s1 /\
   meter_zeroed displayTick (after_seconds s1) /\
   lastDisplayedSec s' = sec /\ lastRunning s' = gRunning s').
Proof.
  cbv zeta. destruct (loop_body_repaint s) as (L & C & R & D).
  unfold currentSec_of in L, C, D.
  split; [reflexivity|]. rewrite L, app_changes, <- repaint_due_iff.
  destruct (repaint_due _ _ _).
  - split; [split; [reflexivity | intros _; apply frame_calls_not_nil]|].
    intros _. auto.
  - split; [split; [intros H; now elim H | discriminate]|].
    intros H. now elim H.
Qed.

Lemma repaint_iff_changed_or_refresh_due_witness :
  lcd (exec loop_body (main_run 0 hw_play)) <> lcd (main_run 0 hw_play) /\
  lastDisplayedSec (exec loop_body (main_run 0 hw_play)) = 0 /\
  lastRunning (exec loop_body (main_run 0 hw_play)) = false.
Proof.
  assert (H : lcd (exec loop_body (main_run 0 hw_play))
              <> lcd (main_run 0 hw_play)).
  { vm_compute. discriminate. }
  split; [exact H|].
  destruct (repaint_iff_changed_or_refresh_due (main_run 0 hw_play))
    as (_ & _ & Hp).
  destruct (Hp H) as (_ & _ & Hs & Hr). rewrite Hs, Hr.
  vm_compute. split; reflexivity.
Defined.

(** C2 as it is worded, with the seconds split of section 4.4, fails in
    both directions on [hw_minute_then_reset].  The eighth iteration ends
    paused at 60182 ms; the ninth dispatches a Reset, so the elapsed time
    becomes 0: the split is 0 before and after, [gRunning] equals its
    cache and the display meter reads 42, yet the iteration repaints (the
    seconds value of line 135 went from 60 to 0).  The eighth iteration
    itself changes nothing and does not repaint, although the split, 0,
    differs from the cached seconds value, 60. *)
Lemma repaint_ignores_seconds_split :
  let s7 := main_run 7 hw_minute_then_reset in
  let s8 := main_run 8 hw_minute_then_reset in
  (gStopwatchMs s8 = 60182 /\ gStopwatchMs (exec loop_input s8) = 0 /\
   lastDisplayedSec (exec loop_input s8) = 60 /\
   meter_reading displayTick (exec loop_input s8) = 42 /\
   ~ claimed_repaint_condition (fun s => lastDisplayedSec s mod 60)
       (exec loop_input s8) /\
   lcd (exec loop_body s8) <> lcd s8) /\
  (gStopwatchMs (exec loop_input s7) = 60182 /\
   claimed_repaint_condition lastDisplayedSec (exec loop_input s7) /\
   lcd (exec loop_body s7) = lcd s7).
Proof.
  cbv zeta. split.
  - split; [vm_compute; reflexivity |].
    split; [vm_compute; reflexivity |].
    split; [vm_compute; reflexivity |].
    split; [vm_compute; reflexivity |].
    split.
    + unfold claimed_repaint_condition.
      intros [H | [H | H]]; vm_compute in H; apply H; reflexivity.
    + vm_compute. discriminate.
  - split; [vm_compute; reflexivity |]. split.
    + left. vm_compute. discriminate.
    + vm_compute. reflexivity.
Qed.

Lemma currentSec_of_wrap32 (x : Z) : currentSec_of (wrap32 x) <> UINT32_MAX.
Proof.
  unfold currentSec_of, UINT32_MAX. pose proof (wrap32_range x) as H.
  unfold is_u32 in H.
  assert (wrap32 x / 1000 <= wrap32 x) by (apply Z.div_le_upper_bound; lia).
  assert (wrap32 x / 1000 < 4294968) by (apply Z.div_lt_upper_bound; lia).
  lia.
Qed.

(** The first test of line 140 holds in the first iteration. *)
Lemma first_iteration_due (h : Hw) :
  let s1 := exec loop_input (main_run 0 h) in
  repaint_due (currentSec_of (gStopwatchMs s1)) (lastDisplayedSec s1) s1
  = true.
Proof.
  destruct (main_setup_post h) as (Hms & _ & _ & _ & _ & Hsec & _).
  cbv zeta in *. apply repaint_due_iff. left.
  destruct (loop_input_frame (main_run 0 h)) as (_ & _ & _ & -> & _).
  rewrite Hsec.
  assert (U : is_u32 (gStopwatchMs (exec loop_input (main_run 0 h)))).
  { apply loop_input_u32. rewrite Hms. unfold is_u32. lia. }
  rewrite <- (wrap32_small _ U). apply currentSec_of_wrap32.
Qed.

Lemma first_iteration_lcd (h : Hw) :
  lcd (main_run 1 h)
  = lcd (main_run 0 h)
    ++ frame_calls
         (currentSec_of (gStopwatchMs (exec loop_input (main_run 0 h))))
         (exec loop_input (main_run 0 h)).
Proof.
  destruct (loop_body_repaint (main_run 0 h)) as (L & _).
  rewrite (first_iteration_due h) in L. rewrite main_run_succ. exact L.
Qed.

(** C10. Whatever the hardware does, the first iteration of the loop
    repaints: the log gains the calls of one frame.  [main] enters the
    loop with [lastDisplayedSec = 2^32 - 1] and
    [lastRunning = !gRunning]; no 32-bit value of [gStopwatchMs] has
    [2^32 - 1] as its seconds value, so the first test of line 140 holds
    in the first iteration. *)
Theorem first_iteration_repaints (h : Hw) :
  lastDisplayedSec (main_run 0 h) = 2 ^ 32 - 1 /\
  lastRunning (main_run 0 h) = negb (gRunning (main_run 0 h)) /\
  (forall x : Z, currentSec_of (wrap32 x) <> 2 ^ 32 - 1) /\
  lcd (main_run 1 h) <> lcd (main_run 0 h) /\
  lcd (main_run 1 h)
  = lcd (main_run 0 h)
    ++ frame_calls
         (currentSec_of (gStopwatchMs (exec loop_input (main_run 0 h))))
         (exec loop_input (main_run 0 h)).
Proof.
  destruct (main_setup_post h) as (_ & Hr & _ & _ & _ & Hsec & Hlr & _).
  cbv zeta in *. repeat split.
  - exact Hsec.
  - rewrite Hlr, Hr. reflexivity.
  - exact currentSec_of_wrap32.
  - rewrite first_iteration_lcd. apply app_changes, frame_calls_not_nil.
  - apply first_iteration_lcd.
Qed.

(* ====================================================================== *)
(** ** The splits and the time string (C3, C4, C8) *)
(* ====================================================================== *)

Lemma drawStopwatchScreen_lcd (sec mn hr ms : Z) (running : bool) (s : State) :
  lcd (exec (drawStopwatchScreen sec mn hr ms running) s)
  = lcd s ++ drawStopwatchScreen_calls sec running.
Proof.
  unfold drawStopwatchScreen_calls. run_stmt.
  rewrite <- ?app_assoc. reflexivity.
Qed.

Lemma length_substring_le (n : nat) (t : string) :
  (String.length (substring 0 n t) <= n)%nat.
Proof.
  revert t. induction n as [|n IH]; intros [|c t]; cbn; try lia.
  specialize (IH t). lia.
Qed.

Lemma length_append (a b : string) :
  String.length (a ++ b) = (String.length a + String.length b)%nat.
Proof. induction a as [|c a IH]; cbn; [reflexivity | now rewrite IH]. Qed.

Lemma length_zeros (k : nat) : String.length (zeros k) = k.
Proof. induction k as [|k IH]; cbn; [reflexivity | now rewrite IH]. Qed.

Lemma length_fmt_0u (width : nat) (n : Z) :
  (width <= String.length (fmt_0u width n))%nat.
Proof. unfold fmt_0u. rewrite length_append, length_zeros. lia. Qed.

Lemma length_str_line240 (sec : Z) : (String.length (str_line240 sec) <= 9)%nat.
Proof. unfold str_line240, snprintf. apply length_substring_le. Qed.

Lemma length_str_line239 (hr mn sec ms : Z) :
  (String.length (str_line239 hr mn sec ms) <= 9)%nat.
Proof. unfold str_line239, snprintf. apply length_substring_le. Qed.

Lemma length_spec_time_string (ms : Z) :
  (12 <= String.length (spec_time_string ms))%nat.
Proof.
  unfold spec_time_string. rewrite !length_append.
  pose proof (length_fmt_0u 2 (spec_hours ms)).
  pose proof (length_fmt_0u 2 (spec_minutes ms)).
  pose proof (length_fmt_0u 2 (spec_seconds ms)).
  pose proof (length_fmt_0u 3 (spec_millis ms)).
  cbn [String.length]. lia.
Qed.

(** C3 (the code departs from it).  Lines 135-138 and 179 divide and
    never reduce modulo 60 or 1000: the hours value is the split of the
    claim for every [gStopwatchMs], but at [gStopwatchMs = 65001] the loop
    derives seconds [65] and milliseconds [65001] where the claim has [5]
    and [1], and at one hour it derives minutes [60] where the claim has
    [0]. *)
Theorem splits_are_not_reduced :
  (forall ms : Z, currentHr_of ms = spec_hours ms) /\
  (currentHr_of 65001, currentMin_of 65001, currentSec_of 65001,
   currentMS_of 65001) = (0, 1, 65, 65001) /\
  (spec_hours 65001, spec_minutes 65001, spec_seconds 65001,
   spec_millis 65001) = (0, 1, 5, 1) /\
  currentMin_of 3600000 = 60 /\ spec_minutes 3600000 = 0.
Proof. repeat split. Qed.

(** C4 (the code departs from it).  The text that [drawStopwatchScreen]
    draws at (64, 50) is the buffer left by line 240, ["%02u s"] of the
    seconds value cut to the nine characters of [char str[10]]: with
    [gStopwatchMs = 65001] it is ["65 s"], where the format of the claim
    gives ["00:01:05:001"].  No input makes the two equal: the format of
    the claim is at least twelve characters long, and neither line 239
    nor line 240 leaves more than nine. *)
Theorem time_string_is_seconds_only :
  (forall (sec mn hr ms : Z) (running : bool) (s : State),
     lcd (exec (drawStopwatchScreen sec mn hr ms running) s)
       = lcd s ++ drawStopwatchScreen_calls sec running /\
     time_string_drawn (drawStopwatchScreen_calls sec running)
       = Some (str_line240 sec)) /\
  str_line240 (currentSec_of 65001) = "65 s"%string /\
  spec_time_string 65001 = "00:01:05:001"%string /\
  (forall sec elapsed_ms : Z, str_line240 sec <> spec_time_string elapsed_ms) /\
  (forall hr mn sec ms elapsed_ms : Z,
     str_line239 hr mn sec ms <> spec_time_string elapsed_ms).
Proof.
  split; [|split; [reflexivity | split; [reflexivity | split]]].
  - intros. split; [apply drawStopwatchScreen_lcd | reflexivity].
  - intros sec ms E. pose proof (length_str_line240 sec) as H.
    pose proof (length_spec_time_string ms). rewrite E in H. lia.
  - intros hr mn sec ms e E. pose proof (length_str_line239 hr mn sec ms) as H.
    pose proof (length_spec_time_string e). rewrite E in H. lia.
Qed.

Lemma main_setup_buttons (h : Hw) :
  button_idle (btnPlayPause (main_run 0 h)) /\
  button_idle (btnReset (main_run 0 h)).
Proof.
  unfold button_idle, main_run, main_setup, initializeDisplay,
    configureTimer, setupButtons, Timer_begin, iterate, boot, Button_new,
    BUTTON_TICK_MS.
  run_stmt. change (20 =? 0) with false. unfold hw_sample. run_stmt.
  split_tests; repeat split; reflexivity.
Qed.

(** One tick cannot complete a 30 ms window. *)
Lemma poll_buttons_no_edge (s : State) :
  button_idle (btnPlayPause s) -> button_idle (btnReset s) ->
  let s' := exec poll_buttons s in
  pressedEdge (btnPlayPause s') = false /\
  releasedEdge (btnPlayPause s') = false /\
  pressedEdge (btnReset s') = false /\
  releasedEdge (btnReset s') = false.
Proof.
  unfold button_idle.
  destruct s as [? ? ? ? ? ? ? [? ? ? ? ? ? ? ?] [? ? ? ? ? ? ? ?]
                 ? ? ? ? ? ? ? ? ?].
  cbn [btnPlayPause btnReset tickIntervalMs debounceMs count pressedEdge
       releasedEdge].
  intros (-> & -> & -> & -> & ->) (-> & -> & -> & -> & ->).
  run_stmt. split_tests; repeat split; try reflexivity;
    match goal with
    | H : false = true |- _ => discriminate H
    | H : (30 <=? (0 + 1) * 20) = true |- _ => vm_compute in H; discriminate H
    end.
Qed.

Lemma handle_play_pause_idle (s : State) :
  pressedEdge (btnPlayPause s) = false ->
  releasedEdge (btnPlayPause s) = false ->
  gRunning (exec handle_play_pause s) = gRunning s /\
  btnStart (exec handle_play_pause s) = btnStart s /\
  guiBtnReset (exec handle_play_pause s) = guiBtnReset s.
Proof.
  destruct s as [? ? ? ? ? ? ? [? ? ? ? ? ? ? ?] ? ? ? ? ? ? ? ? ? ?].
  cbn [btnPlayPause pressedEdge releasedEdge]. intros -> ->.
  run_stmt. repeat split; reflexivity.
Qed.

Lemma handle_reset_idle (s : State) :
  pressedEdge (btnReset s) = false ->
  releasedEdge (btnReset s) = false ->
  gStopwatchMs (exec handle_reset s) = gStopwatchMs s /\
  guiBtnReset (exec handle_reset s) = guiBtnReset s.
Proof.
  destruct s as [? ? ? ? ? ? ? ? [? ? ? ? ? ? ? ?] ? ? ? ? ? ? ? ? ?].
  cbn [btnReset pressedEdge releasedEdge]. intros -> ->.
  run_stmt. repeat split; reflexivity.
Qed.

Lemma poll_buttons_gui (s : State) :
  guiBtnReset (exec poll_buttons s) = guiBtnReset s.
Proof. frame_stmt. Qed.

Lemma stopwatch_logic_gui (s : State) :
  guiBtnReset (exec stopwatch_logic s) = guiBtnReset s.
Proof. frame_stmt. Qed.

(** With no edge to dispatch and the stopwatch stopped, the input part
    of an iteration changes neither the model nor the GUI buttons. *)
Lemma loop_input_idle (s0 : State) :
  button_idle (btnPlayPause s0) -> button_idle (btnReset s0) ->
  gRunning s0 = false ->
  let s1 := exec loop_input s0 in
  gStopwatchMs s1 = gStopwatchMs s0 /\ gRunning s1 = false /\
  btnStart s1 = btnStart s0 /\ guiBtnReset s1 = guiBtnReset s0.
Proof.
  intros Hb1 Hb2 Hr. cbv zeta.
  rewrite loop_input_eq, at_stopwatch_logic_eq.
  destruct (poll_buttons_no_edge s0 Hb1 Hb2) as (P1 & P2 & P3 & P4).
  destruct (poll_buttons_frame s0) as (_ & M1 & R1 & B1 & _).
  pose proof (poll_buttons_gui s0) as G1.
  remember (exec poll_buttons s0) as sa eqn:Ea. clear Ea.
  destruct (handle_play_pause_idle sa P1 P2) as (R2 & B2 & G2).
  destruct (handle_play_pause_frame sa) as (_ & _ & M2 & Q2 & _).
  remember (exec handle_play_pause sa) as sb eqn:Eb. clear Eb.
  rewrite <- Q2 in P3, P4.
  destruct (handle_reset_idle sb P3 P4) as (M3 & G3).
  destruct (handle_reset_frame sb) as (_ & _ & R3 & B3 & _).
  remember (exec handle_reset sb) as sc eqn:Ec. clear Ec.
  destruct (stopwatch_logic_frame sc) as (_ & R4 & B4 & _).
  pose proof (stopwatch_logic_gui sc) as G4.
  pose proof (stopwatch_logic_ms sc) as M4.
  assert (Rc : gRunning sc = false) by congruence.
  rewrite Rc in M4. cbn [andb] in M4.
  remember (exec stopwatch_logic sc) as sd eqn:Ed. clear Ed.
  repeat split; congruence.
Qed.

(** The first iteration dispatches no edge and, with the stopwatch
    stopped, adds no time. *)
Lemma first_iteration_input (h : Hw) :
  let s0 := main_run 0 h in
  let s1 := exec loop_input s0 in
  gStopwatchMs s1 = 0 /\ gRunning s1 = false /\
  btnStart s1 = btnStart s0 /\ guiBtnReset s1 = guiBtnReset s0.
Proof.
  cbv zeta.
  destruct (main_setup_post h) as (Hms & Hr & _).
  destruct (main_setup_buttons h) as (Hb1 & Hb2).
  destruct (loop_input_idle (main_run 0 h) Hb1 Hb2 Hr) as (M & R & B & G).
  rewrite <- Hms. auto.
Qed.

(** C8 (the code departs from it in the time string).  [main] enters the
    loop with [gStopwatchMs = 0] and [gRunning = false], and on every
    hardware the first iteration draws the same frame: the state word is
    "STOPPED" and the first GUI button reads "PLAY", but the time string
    is ["00 s"], where the claim has ["00:00:00:000"]. *)
Theorem power_on_frame_shows_seconds_only (h : Hw) :
  gStopwatchMs (main_run 0 h) = 0 /\ gRunning (main_run 0 h) = false /\
  lcd (main_run 1 h) = lcd (main_run 0 h) ++ power_on_frame /\
  state_word_drawn power_on_frame = Some "STOPPED"%string /\
  first_button_label_drawn power_on_frame = Some "PLAY"%string /\
  time_string_drawn power_on_frame = Some "00 s"%string /\
  spec_time_string 0 = "00:00:00:000"%string.
Proof.
  destruct (main_setup_post h) as (Hms & Hr & Hb & Hg & _).
  destruct (first_iteration_input h) as (M & R & B & G).
  cbv zeta in *.
  repeat split; try assumption.
  rewrite first_iteration_lcd. f_equal.
  unfold power_on_frame, frame_calls. rewrite M, R, B, G, Hb, Hg.
  reflexivity.
Qed.

(* ====================================================================== *)
(** ** What the loop never writes *)
(* ====================================================================== *)

Lemma poll_buttons_config (s : State) : config (exec poll_buttons s) = config s.
Proof. unfold config, geometry. frame_stmt. Qed.

Lemma handle_play_pause_config (s : State) :
  config (exec handle_play_pause s) = config s.
Proof.
  unfold config, geometry. run_stmt.
  destruct s as [? ? ? ? ? [? ? ? ? ? ?] ? [? ? ? ? ? ? pe re] ? ? ? ? ? ? ? ? ? ?].
  destruct pe, re; reflexivity.
Qed.

Lemma handle_reset_config (s : State) :
  config (exec handle_reset s) = config s.
Proof.
  unfold config, geometry. run_stmt.
  destruct s as [? ? ? ? ? ? [? ? ? ? ? ?] ? [? ? ? ? ? ? pe re] ? ? ? ? ? ? ? ? ?].
  destruct pe, re; reflexivity.
Qed.

Lemma stopwatch_logic_config (s : State) :
  config (exec stopwatch_logic s) = config s.
Proof. unfold config, geometry. frame_stmt. Qed.

Lemma update_seconds_config (sec mn hr ms : Z) (s : State) :
  config (exec (update_seconds sec mn hr ms) s) = config s.
Proof. unfold config, geometry. frame_stmt. Qed.

Lemma update_mins_config (mn : Z) (s : State) :
  config (exec (update_mins mn) s) = config s.
Proof. unfold config, geometry. frame_stmt. Qed.

Lemma update_hours_config (hr : Z) (s : State) :
  config (exec (update_hours hr) s) = config s.
Proof. unfold config, geometry. frame_stmt. Qed.

Lemma update_millis_config (ms : Z) (s : State) :
  config (exec (update_millis ms) s) = config s.
Proof. unfold config, geometry. frame_stmt. Qed.

Lemma loop_input_config (s : State) : config (exec loop_input s) = config s.
Proof.
  rewrite loop_input_eq, at_stopwatch_logic_eq, stopwatch_logic_config,
    handle_reset_config, handle_play_pause_config, poll_buttons_config.
  reflexivity.
Qed.

Lemma loop_update_config (s : State) : config (exec loop_update s) = config s.
Proof.
  rewrite loop_update_eq. cbv zeta. unfold after_seconds.
  rewrite update_millis_config, update_hours_config, update_mins_config,
    update_seconds_config.
  reflexivity.
Qed.

Lemma loop_body_config (s : State) : config (exec loop_body s) = config s.
Proof. rewrite loop_body_eq, loop_update_config, loop_input_config. reflexivity. Qed.

Lemma main_setup_config (h : Hw) :
  config (main_run 0 h)
  = (120000000, mkTimer 120000, (0, 80, 50, 28), (60, 80, 50, 28),
     "RESET"%string).
Proof.
  unfold config, geometry.
  destruct (main_setup_post h) as (_ & _ & -> & -> & -> & _).
  f_equal. f_equal. f_equal. f_equal.
  unfold main_run, main_setup, initializeDisplay, configureTimer,
    setupButtons, Timer_begin, iterate, boot.
  run_stmt. split_tests. reflexivity.
Qed.

Lemma main_run_config (n : nat) (h : Hw) :
  config (main_run n h)
  = (120000000, mkTimer 120000, (0, 80, 50, 28), (60, 80, 50, 28),
     "RESET"%string).
Proof.
  induction n as [|n IH].
  - apply main_setup_config.
  - rewrite main_run_succ, loop_body_config. exact IH.
Qed.

(** X1.  Whatever the hardware and the user do, no iteration of the loop
    writes the clock setting, the timer scale, the place of a GUI button
    or the label of the Reset button: in every state [main] reaches they
    are the values of lines 40-41, 72 and 209.  Both GUI buttons therefore
    always lie on the 128 x 128 screen, the first one left of the
    second. *)
Theorem configuration_is_never_written (n : nat) (h : Hw) :
  let s := main_run n h in
  config s = (120000000, mkTimer 120000, (0, 80, 50, 28), (60, 80, 50, 28),
              "RESET"%string) /\
  on_screen (btnStart s) /\ on_screen (guiBtnReset s) /\
  btn_x (btnStart s) + btn_w (btnStart s) <= btn_x (guiBtnReset s).
Proof.
  cbv zeta. pose proof (main_run_config n h) as H.
  split; [exact H|]. unfold config, geometry in H.
  injection H as _ _ X1 Y1 W1 H1 X2 Y2 W2 H2 _.
  unfold on_screen. rewrite X1, Y1, W1, H1, X2, Y2, W2, H2. lia.
Qed.

(* ====================================================================== *)
(** ** Edge dispatch over a whole iteration *)
(* ====================================================================== *)

Lemma handle_play_pause_pressed (s : State) :
  pressed (btnStart (exec handle_play_pause s))
  = if releasedEdge (btnPlayPause s) then false
    else if pressedEdge (btnPlayPause s) then true
    else pressed (btnStart s).
Proof.
  run_stmt.
  destruct s as [? ? ? ? ? ? ? [? ? ? ? ? ? pe re] ? ? ? ? ? ? ? ? ? ?].
  destruct pe, re; reflexivity.
Qed.

Lemma handle_reset_pressed (s : State) :
  pressed (guiBtnReset (exec handle_reset s))
  = if releasedEdge (btnReset s) then false
    else if pressedEdge (btnReset s) then true
    else pressed (guiBtnReset s).
Proof.
  run_stmt.
  destruct s as [? ? ? ? ? ? ? ? [? ? ? ? ? ? pe re] ? ? ? ? ? ? ? ? ?].
  destruct pe, re; reflexivity.
Qed.

Lemma handle_play_pause_gui (s : State) :
  guiBtnReset (exec handle_play_pause s) = guiBtnReset s.
Proof. frame_stmt. Qed.

Lemma loop_update_gui (s : State) :
  guiBtnReset (exec loop_update s) = guiBtnReset s.
Proof.
  rewrite loop_update_eq. cbv zeta. unfold after_seconds.
  assert (U1 : forall a b c d x,
             guiBtnReset (exec (update_seconds a b c d) x) = guiBtnReset x)
    by (intros; frame_stmt).
  assert (U2 : forall a x, guiBtnReset (exec (update_mins a) x) = guiBtnReset x)
    by (intros; frame_stmt).
  assert (U3 : forall a x, guiBtnReset (exec (update_hours a) x) = guiBtnReset x)
    by (intros; frame_stmt).
  assert (U4 : forall a x, guiBtnReset (exec (update_millis a) x) = guiBtnReset x)
    by (intros; frame_stmt).
  rewrite U4, U3, U2, U1. reflexivity.
Qed.

(** X2.  Over one whole iteration, with [s0] the state after the buttons
    were polled: [gRunning] is flipped exactly when a press edge of the
    Play/Pause button is pending, and by nothing else in the iteration
    (not by Reset, the time step or a repaint).  Each GUI button ends
    released when a release edge was pending, even if a press edge was
    pending too (lines 108-111 and 117-120 run after the press is
    handled), ends pressed when only a press edge was pending, and keeps
    its look otherwise. *)
Theorem iteration_dispatches_edges (s : State) :
  let s0 := exec poll_buttons s in
  let s' := exec loop_body s in
  gRunning s' = xorb (gRunning s) (pressedEdge (btnPlayPause s0)) /\
  pressed (btnStart s')
    = (if releasedEdge (btnPlayPause s0) then false
       else if pressedEdge (btnPlayPause s0) then true
       else pressed (btnStart s)) /\
  pressed (guiBtnReset s')
    = (if releasedEdge (btnReset s0) then false
       else if pressedEdge (btnReset s0) then true
       else pressed (guiBtnReset s)).
Proof.
  cbv zeta. rewrite loop_body_eq.
  destruct (loop_update_frame (exec loop_input s)) as (_ & -> & -> & _).
  rewrite loop_update_gui, loop_input_eq, at_stopwatch_logic_eq.
  destruct (poll_buttons_frame s) as (_ & _ & R0 & B0 & _).
  pose proof (poll_buttons_gui s) as G0.
  remember (exec poll_buttons s) as s0 eqn:E0. clear E0.
  pose proof (handle_play_pause_running s0) as R1.
  pose proof (handle_play_pause_pressed s0) as P1.
  pose proof (handle_play_pause_gui s0) as G1.
  destruct (handle_play_pause_frame s0) as (_ & _ & _ & Q1 & _).
  remember (exec handle_play_pause s0) as s1 eqn:E1. clear E1.
  pose proof (handle_reset_pressed s1) as P2.
  destruct (handle_reset_frame s1) as (_ & _ & R2 & B2 & _).
  remember (exec handle_reset s1) as s2 eqn:E2. clear E2.
  destruct (stopwatch_logic_frame s2) as (_ & R3 & B3 & _).
  rewrite (stopwatch_logic_gui s2).
  rewrite R3, B3, R2, B2, P2, Q1, G1, G0, P1, R1, R0, B0.
  repeat split.
  destruct (pressedEdge (btnPlayPause s0)), (gRunning s); reflexivity.
Qed.

(** X3.  The two dispatch blocks of the loop (lines 104-111 and 113-120)
    commute: handling Reset before Play/Pause would leave the same
    state. *)
Theorem dispatch_blocks_commute (s : State) :
  exec handle_reset (exec handle_play_pause s)
  = exec handle_play_pause (exec handle_reset s).
Proof.
  run_stmt.
  destruct s as [? ? ? ? ? ? ? [? ? ? ? ? ? pe re] [? ? ? ? ? ? pe' re']
                 ? ? ? ? ? ? ? ? ?].
  destruct pe, re, pe', re'; reflexivity.
Qed.

(** X4.  Two clicks on Play/Pause undo each other: from a state in which
    the label of the first GUI button agrees with [gRunning],
    [onPlayPauseClick] twice gives back the very same state. *)
Theorem two_clicks_restore_state (s : State) :
  label_ok s ->
  exec onPlayPauseClick (exec onPlayPauseClick s) = s.
Proof.
  unfold label_ok.
  destruct s as [? ? ? ? r [? ? ? ? l ?] ? ? ? ? ? ? ? ? ? ? ? ?].
  run_stmt. intros ->. destruct r; reflexivity.
Qed.

Lemma two_clicks_restore_state_witness :
  label_ok (boot hw_play) /\
  exec onPlayPauseClick (exec onPlayPauseClick (boot hw_play)) = boot hw_play.
Proof.
  assert (H : label_ok (boot hw_play)) by reflexivity.
  split; [exact H | exact (two_clicks_restore_state (boot hw_play) H)].
Defined.

(* ====================================================================== *)
(** ** The caches and the display meter at the end of an iteration *)
(* ====================================================================== *)

Lemma update_mins_cache (mn : Z) (s : State) :
  lastDisplayedMin (exec (update_mins mn) s) = mn.
Proof. run_stmt. destruct s as [? ? ? ? r ? ? ? ? ? ? ? ? lsec lmin lhr lms lr].
  destruct (Z.eqb_spec mn lmin); cbn [negb orb]; run_stmt;
    [destruct (Bool.eqb r lr); cbn [negb orb]; run_stmt;
       [match goal with |- context [DISPLAY_REFRESH_MS <=? ?x] =>
          destruct (DISPLAY_REFRESH_MS <=? x) end; run_stmt | ] | ];
    congruence.
Qed.

Lemma update_hours_cache (hr : Z) (s : State) :
  lastDisplayedHr (exec (update_hours hr) s) = hr.
Proof. run_stmt. destruct s as [? ? ? ? r ? ? ? ? ? ? ? ? lsec lmin lhr lms lr].
  destruct (Z.eqb_spec hr lhr); cbn [negb orb]; run_stmt;
    [destruct (Bool.eqb r lr); cbn [negb orb]; run_stmt;
       [match goal with |- context [DISPLAY_REFRESH_MS <=? ?x] =>
          destruct (DISPLAY_REFRESH_MS <=? x) end; run_stmt | ] | ];
    congruence.
Qed.

Lemma update_millis_cache (ms : Z) (s : State) :
  lastDisplayedMS (exec (update_millis ms) s) = ms /\
  (ms <> lastDisplayedMS s ->
   meter_zeroed displayTick (exec (update_millis ms) s)).
Proof. unfold meter_zeroed. run_stmt.
  destruct s as [? ? ? ? r ? ? ? ? ? ? ? ? lsec lmin lhr lms lr].
  destruct (Z.eqb_spec ms lms); cbn [negb orb]; run_stmt;
    [destruct (Bool.eqb r lr); cbn [negb orb]; run_stmt;
       [match goal with |- context [DISPLAY_REFRESH_MS <=? ?x] =>
          destruct (DISPLAY_REFRESH_MS <=? x) end; run_stmt | ] | ];
    split; congruence.
Qed.

Lemma update_hours_keeps_min (hr : Z) (s : State) :
  lastDisplayedMin (exec (update_hours hr) s) = lastDisplayedMin s.
Proof. frame_stmt. Qed.

Lemma update_millis_keeps (ms : Z) (s : State) :
  lastDisplayedMin (exec (update_millis ms) s) = lastDisplayedMin s /\
  lastDisplayedHr (exec (update_millis ms) s) = lastDisplayedHr s.
Proof. frame_stmt. Qed.

Lemma loop_input_keeps_ms (s : State) :
  lastDisplayedMS (exec loop_input s) = lastDisplayedMS s.
Proof.
  rewrite loop_input_eq, at_stopwatch_logic_eq.
  assert (U1 : forall x, lastDisplayedMS (exec poll_buttons x) = lastDisplayedMS x)
    by (intros; frame_stmt).
  assert (U2 : forall x, lastDisplayedMS (exec handle_play_pause x)
                         = lastDisplayedMS x) by (intros; frame_stmt).
  assert (U3 : forall x, lastDisplayedMS (exec handle_reset x) = lastDisplayedMS x)
    by (intros; frame_stmt).
  assert (U4 : forall x, lastDisplayedMS (exec stopwatch_logic x)
                         = lastDisplayedMS x) by (intros; frame_stmt).
  rewrite U4, U3, U2, U1. reflexivity.
Qed.

Lemma updates_keep_ms (s1 : State) :
  let ms := gStopwatchMs s1 in
  lastDisplayedMS
    (exec (update_hours (currentHr_of ms))
       (exec (update_mins (currentMin_of ms)) (after_seconds s1)))
  = lastDisplayedMS s1.
Proof.
  cbv zeta. unfold after_seconds.
  assert (U1 : forall a b c d x,
             lastDisplayedMS (exec (update_seconds a b c d) x)
             = lastDisplayedMS x) by (intros; frame_stmt).
  assert (U2 : forall a x, lastDisplayedMS (exec (update_mins a) x)
                           = lastDisplayedMS x) by (intros; frame_stmt).
  assert (U3 : forall a x, lastDisplayedMS (exec (update_hours a) x)
                           = lastDisplayedMS x) by (intros; frame_stmt).
  rewrite U3, U2, U1. reflexivity.
Qed.

(** The elapsed time that the update blocks of an iteration work on. *)
Lemma loop_body_ms_input (s : State) :
  gStopwatchMs (exec loop_body s) = gStopwatchMs (exec loop_input s).
Proof.
  rewrite loop_body_eq.
  destruct (loop_update_frame (exec loop_input s)) as (-> & _). reflexivity.
Qed.

Lemma loop_update_caches (s1 : State) :
  let s' := exec loop_update s1 in
  lastDisplayedMin s' = currentMin_of (gStopwatchMs s1) /\
  lastDisplayedHr s' = currentHr_of (gStopwatchMs s1) /\
  lastDisplayedMS s' = gStopwatchMs s1.
Proof.
  cbv zeta. rewrite loop_update_eq. cbv zeta. unfold after_seconds.
  set (ms := gStopwatchMs s1).
  destruct (update_seconds_frame (currentSec_of ms) (currentMin_of ms)
              (currentHr_of ms) ms s1) as (E2 & _).
  remember (exec (update_seconds _ _ _ _) s1) as s2 eqn:X2. clear X2.
  pose proof (update_mins_cache (currentMin_of ms) s2) as C3.
  destruct (update_mins_frame (currentMin_of ms) s2) as (_ & E3 & _).
  remember (exec (update_mins _) s2) as s3 eqn:X3. clear X3.
  pose proof (update_hours_cache (currentHr_of ms) s3) as C4.
  pose proof (update_hours_keeps_min (currentHr_of ms) s3) as K4.
  destruct (update_hours_frame (currentHr_of ms) s3) as (_ & E4 & _).
  remember (exec (update_hours _) s3) as s4 eqn:X4. clear X4.
  destruct (update_millis_cache (currentMS_of (gStopwatchMs s4)) s4)
    as (C5 & _).
  destruct (update_millis_keeps (currentMS_of (gStopwatchMs s4)) s4)
    as (K5m & K5h).
  rewrite C5, K5m, K5h, K4, C3, C4. unfold currentMS_of.
  rewrite Z.div_1_r. subst ms. repeat split; congruence.
Qed.

(** X5.  At the end of every iteration the five caches of the loop hold
    the current values: the seconds, minutes and hours quotients of
    [gStopwatchMs], [gStopwatchMs] itself and [gRunning].  Each update
    block either finds its value unchanged or stores it, whether or not
    the iteration repaints. *)
Theorem iteration_refreshes_caches (s : State) :
  let s' := exec loop_body s in
  lastDisplayedSec s' = gStopwatchMs s' / 1000 /\
  lastDisplayedMin s' = gStopwatchMs s' / 60000 /\
  lastDisplayedHr s' = gStopwatchMs s' / 3600000 /\
  lastDisplayedMS s' = gStopwatchMs s' /\
  lastRunning s' = gRunning s'.
Proof.
  cbv zeta. destruct (loop_body_repaint s) as (_ & C & R & _).
  rewrite loop_body_ms_input. split; [exact C | ].
  rewrite loop_body_eq.
  destruct (loop_update_caches (exec loop_input s)) as (Cm & Ch & Cs).
  repeat split; [exact Cm | exact Ch | exact Cs | ].
  rewrite <- loop_body_eq. exact R.
Qed.

(** X6.  An iteration that ends with an elapsed time other than the
    cached [lastDisplayedMS] re-snapshots the display meter in its last
    block (lines 179-187), whether or not it repainted: while the
    stopwatch counts, the 50 ms of line 142 are measured from the end of
    the previous iteration and not from the last repaint. *)
Theorem display_meter_restarts_when_time_moves (s : State) :
  gStopwatchMs (exec loop_body s) <> lastDisplayedMS s ->
  meter_zeroed displayTick (exec loop_body s).
Proof.
  intros H. rewrite loop_body_ms_input in H.
  rewrite loop_body_eq, loop_update_eq. cbv zeta.
  set (s1 := exec loop_input s) in *.
  pose proof (updates_keep_ms s1) as K. cbv zeta in K.
  destruct (update_mins_frame (currentMin_of (gStopwatchMs s1))
              (after_seconds s1)) as (_ & E3 & _).
  destruct (update_hours_frame (currentHr_of (gStopwatchMs s1))
              (exec (update_mins (currentMin_of (gStopwatchMs s1)))
                 (after_seconds s1))) as (_ & E4 & _).
  remember (exec (update_hours _) _) as s4 eqn:X4. clear X4.
  apply update_millis_cache.
  unfold currentMS_of. rewrite Z.div_1_r, K, E4, E3. unfold after_seconds.
  destruct (update_seconds_frame (currentSec_of (gStopwatchMs s1))
              (currentMin_of (gStopwatchMs s1))
              (currentHr_of (gStopwatchMs s1)) (gStopwatchMs s1) s1)
    as (-> & _).
  subst s1. rewrite loop_input_keeps_ms. exact H.
Qed.

Lemma display_meter_restarts_when_time_moves_witness :
  gStopwatchMs (exec loop_body (main_run 2 hw_play))
    <> lastDisplayedMS (main_run 2 hw_play) /\
  meter_zeroed displayTick (exec loop_body (main_run 2 hw_play)).
Proof.
  assert (H : gStopwatchMs (exec loop_body (main_run 2 hw_play))
              <> lastDisplayedMS (main_run 2 hw_play)).
  { vm_compute. discriminate. }
  split; [exact H |].
  exact (display_meter_restarts_when_time_moves (main_run 2 hw_play) H).
Defined.

(* ====================================================================== *)
(** ** The frames of a run *)
(* ====================================================================== *)

Lemma length_frame_calls (sec : Z) (s : State) :
  List.length (frame_calls sec s) = 21%nat.
Proof. reflexivity. Qed.

Lemma main_run_iterate (n : nat) (h : Hw) :
  main_run n h = exec (iterate n loop_body) (main_run 0 h).
Proof.
  assert (E : forall x, exec (iterate 0 loop_body) x = x) by (intros; exact eq_refl).
  unfold main_run. rewrite !exec_bind, E. exact eq_refl.
Qed.

Lemma iterate_lcd_length (n : nat) (s : State) :
  List.length (lcd (exec (iterate n loop_body) s))
  = (List.length (lcd s) + 21 * repaints n s)%nat.
Proof.
  revert s. induction n as [|n IH]; intros s.
  - cbn [repaints]. change (exec (iterate 0 loop_body) s) with s. lia.
  - change (iterate (S n) loop_body) with (loop_body ;; iterate n loop_body).
    rewrite exec_bind, IH. cbn [repaints].
    destruct (loop_body_repaint s) as (L & _). rewrite L, List.length_app.
    destruct (repaint_due _ _ _); [rewrite length_frame_calls|]; cbn [List.length];
      lia.
Qed.

Lemma repaints_le (n : nat) (s : State) : (repaints n s <= n)%nat.
Proof.
  revert s. induction n as [|n IH]; intros s; cbn [repaints]; [lia|].
  specialize (IH (exec loop_body s)). destruct (repaint_due _ _ _); lia.
Qed.

(** X7.  The display is written frame by frame: after [n] iterations the
    log holds the 6 calls of [initializeDisplay] and 21 calls for each
    iteration that repainted, nothing else.  An iteration draws at most
    one frame, and the first one always draws. *)
Theorem display_log_is_whole_frames (n : nat) (h : Hw) :
  List.length (lcd (main_run n h))
    = (6 + 21 * repaints n (main_run 0 h))%nat /\
  (repaints n (main_run 0 h) <= n)%nat /\
  (1 <= repaints (S n) (main_run 0 h))%nat.
Proof.
  split; [|split].
  - rewrite main_run_iterate, iterate_lcd_length.
    destruct (main_setup_post h) as (_ & _ & _ & _ & _ & _ & _ & ->).
    reflexivity.
  - apply repaints_le.
  - cbn [repaints]. rewrite (first_iteration_due h). lia.
Qed.

Lemma main_run_label_ok (n : nat) (h : Hw) : label_ok (main_run n h).
Proof.
  induction n as [|n IH].
  - unfold label_ok.
    destruct (main_setup_post h) as (_ & -> & -> & _). reflexivity.
  - rewrite main_run_succ. apply loop_body_label_ok, IH.
Qed.

Lemma frame_calls_drawn (sec : Z) (s : State) :
  geometry (btnStart s) = (0, 80, 50, 28) ->
  state_word_drawn (frame_calls sec s)
    = Some (if gRunning s then "RUNNING" else "STOPPED")%string /\
  first_button_label_drawn (frame_calls sec s) = Some (label (btnStart s)) /\
  time_string_drawn (frame_calls sec s) = Some (str_line240 sec).
Proof.
  unfold geometry. intros G. injection G as X Y W H.
  unfold frame_calls, drawStopwatchScreen_calls, drawButton_calls.
  rewrite X, Y, W, H.
  change (0 + Z.quot 50 2) with 25. change (80 + Z.quot 28 2) with 94.
  repeat split.
Qed.

Lemma frame_agrees (s : State) :
  label_ok s ->
  config s = (120000000, mkTimer 120000, (0, 80, 50, 28), (60, 80, 50, 28),
              "RESET"%string) ->
  let s1 := exec loop_input s in
  let f := frame_calls (gStopwatchMs s1 / 1000) s1 in
  lcd (exec loop_body s)
    = lcd s
      ++ (if repaint_due (gStopwatchMs s1 / 1000) (lastDisplayedSec s1) s1
          then f else []) /\
  state_word_drawn f
    = Some (if gRunning s1 then "RUNNING" else "STOPPED")%string /\
  first_button_label_drawn f
    = Some (if gRunning s1 then "PAUSE" else "PLAY")%string /\
  time_string_drawn f = Some (str_line240 (gStopwatchMs s1 / 1000)).
Proof.
  intros K C. cbv zeta.
  apply loop_input_label_ok in K. rewrite <- (loop_input_config s) in C.
  destruct (loop_body_repaint s) as (L & _). cbv zeta in L.
  unfold currentSec_of in L.
  remember (exec loop_input s) as s1 eqn:E1. clear E1.
  assert (G : geometry (btnStart s1) = (0, 80, 50, 28)).
  { unfold config, geometry in *. injection C as _ _ X Y W H _ _ _ _ _.
    rewrite X, Y, W, H. reflexivity. }
  destruct (frame_calls_drawn (gStopwatchMs s1 / 1000) s1 G) as (W & B & T).
  unfold label_ok in K. rewrite K in B.
  split; [exact L | split; [exact W | split; [exact B | exact T]]].
Qed.

(** X8.  Every frame the loop ever draws agrees with the state it is
    drawn from: in any iteration of any run, the frame appended to the log
    (if the iteration repaints) has the state word "RUNNING" and the first
    button label "PAUSE" when [gRunning] holds at line 140, "STOPPED" and
    "PLAY" when it does not, and its time string is line 240's rendering
    of [gStopwatchMs / 1000]. *)
Theorem every_frame_agrees_with_running (n : nat) (h : Hw) :
  let s1 := exec loop_input (main_run n h) in
  let f := frame_calls (gStopwatchMs s1 / 1000) s1 in
  lcd (main_run (S n) h)
    = lcd (main_run n h)
      ++ (if repaint_due (gStopwatchMs s1 / 1000) (lastDisplayedSec s1) s1
          then f else []) /\
  state_word_drawn f
    = Some (if gRunning s1 then "RUNNING" else "STOPPED")%string /\
  first_button_label_drawn f
    = Some (if gRunning s1 then "PAUSE" else "PLAY")%string /\
  time_string_drawn f = Some (str_line240 (gStopwatchMs s1 / 1000)).
Proof.
  rewrite main_run_succ.
  exact (frame_agrees (main_run n h) (main_run_label_ok n h)
           (main_run_config n h)).
Qed.

(* ====================================================================== *)
(** ** Reset, monotonicity and the button cadence *)
(* ====================================================================== *)

Lemma iteration_delta_range (s : State) : 0 <= iteration_delta s < 2 ^ 32.
Proof.
  unfold iteration_delta. cbv zeta.
  pose proof (meter_reading_lt stopwatchTick (at_stopwatch_logic s)).
  destruct (gRunning _); cbn [andb]; [|lia].
  destruct (Z.ltb_spec 0 (meter_reading stopwatchTick (at_stopwatch_logic s)));
    lia.
Qed.

(** X9.  An iteration that dispatches a Reset press restarts the count: it
    ends with [gStopwatchMs] equal to the delta that the same iteration
    then adds at lines 123-128, which is zero when the stopwatch is
    paused.  The reset does not restart the stopwatch meter, so a reset
    while running leaves the time since the previous iteration on the
    clock. *)
Theorem reset_restarts_from_iteration_delta (s : State) :
  reset_dispatched s = true ->
  gStopwatchMs (exec loop_body s) = iteration_delta s /\
  stopwatchTick (at_stopwatch_logic s) = stopwatchTick s /\
  (gRunning (at_stopwatch_logic s) = false -> gStopwatchMs (exec loop_body s) = 0).
Proof.
  intros H.
  assert (E : gStopwatchMs (exec loop_body s) = iteration_delta s).
  { rewrite loop_body_ms_input, loop_input_eq, stopwatch_logic_ms,
      at_stopwatch_logic_ms, H.
    unfold iteration_delta. cbv zeta.
    pose proof (meter_reading_lt stopwatchTick (at_stopwatch_logic s)) as B.
    destruct (gRunning (at_stopwatch_logic s)); cbn [andb]; [|reflexivity].
    destruct (Z.ltb_spec 0 (meter_reading stopwatchTick (at_stopwatch_logic s)));
      [|reflexivity].
    apply wrap32_small. unfold is_u32. lia. }
  split; [exact E | split].
  - rewrite at_stopwatch_logic_eq.
    destruct (handle_reset_frame (exec handle_play_pause (exec poll_buttons s)))
      as (_ & _ & _ & _ & _ & -> & _).
    destruct (handle_play_pause_frame (exec poll_buttons s))
      as (_ & _ & _ & _ & _ & -> & _).
    apply (poll_buttons_frame s).
  - intros R. rewrite E. apply iteration_delta_paused, R.
Qed.

Lemma reset_restarts_from_iteration_delta_witness :
  reset_dispatched (main_run 4 hw_play_then_reset) = true /\
  gStopwatchMs (main_run 4 hw_play_then_reset) = 220 /\
  gStopwatchMs (exec loop_body (main_run 4 hw_play_then_reset)) = 80.
Proof.
  assert (H : reset_dispatched (main_run 4 hw_play_then_reset) = true).
  { vm_compute. reflexivity. }
  split; [exact H | split; [vm_compute; reflexivity |]].
  destruct (reset_restarts_from_iteration_delta
              (main_run 4 hw_play_then_reset) H) as (E & _).
  rewrite E. vm_compute. reflexivity.
Defined.

(** X10.  Without a reset and short of the 32-bit wrap the elapsed time
    never runs backwards: after any number of iterations it is at least
    what it was. *)
Theorem elapsed_never_decreases (n : nat) (s : State) :
  is_u32 (gStopwatchMs s) -> no_reset n s = true ->
  gStopwatchMs s + sum (deltas n s) < 2 ^ 32 ->
  gStopwatchMs s <= gStopwatchMs (exec (iterate n loop_body) s).
Proof.
  intros Hu Hn Hs. rewrite (iterate_ms n s Hu Hn).
  pose proof (deltas_nonneg n s). rewrite wrap32_small; [lia|].
  unfold is_u32 in *. lia.
Qed.

Lemma elapsed_never_decreases_witness :
  is_u32 (gStopwatchMs (main_run 1 hw_play)) /\
  no_reset 3 (main_run 1 hw_play) = true /\
  gStopwatchMs (main_run 1 hw_play) + sum (deltas 3 (main_run 1 hw_play))
    < 2 ^ 32 /\
  gStopwatchMs (main_run 1 hw_play)
    <= gStopwatchMs (exec (iterate 3 loop_body) (main_run 1 hw_play)).
Proof.
  assert (Hu : is_u32 (gStopwatchMs (main_run 1 hw_play))).
  { vm_compute. split; [discriminate | reflexivity]. }
  assert (Hn : no_reset 3 (main_run 1 hw_play) = true).
  { vm_compute. reflexivity. }
  assert (Hs : gStopwatchMs (main_run 1 hw_play)
               + sum (deltas 3 (main_run 1 hw_play)) < 2 ^ 32).
  { vm_compute. reflexivity. }
  split; [exact Hu | split; [exact Hn | split; [exact Hs |]]].
  exact (elapsed_never_decreases 3 (main_run 1 hw_play) Hu Hn Hs).
Defined.

(** X11.  The buttons are sampled only on their cadence (lines 97-101):
    when the button meter reads less than [BUTTON_TICK_MS] the poll block
    reads no input line and leaves both buttons and the meter as they
    were; when it reads 20 ms or more the block ends with the meter
    re-snapshotted. *)
Theorem buttons_polled_only_when_due (s : State) :
  let s' := exec poll_buttons s in
  BUTTON_TICK_MS = 20 /\
  if BUTTON_TICK_MS <=? meter_reading buttonTick s
  then meter_zeroed buttonTick s'
  else btnPlayPause s' = btnPlayPause s /\ btnReset s' = btnReset s /\
       buttonTick s' = buttonTick s /\
       hw_s1 (hw s') = hw_s1 (hw s) /\ hw_s2 (hw s') = hw_s2 (hw s).
Proof.
  cbv zeta. split; [reflexivity|].
  unfold meter_zeroed. rewrite meter_reading_eq. run_stmt.
  destruct s as [h ? ? ? ? ? ? ? ? ? ? ? ? ? ? ? ? ?].
  match goal with |- context [BUTTON_TICK_MS <=? ?x] =>
    destruct (BUTTON_TICK_MS <=? x) end; run_stmt.
  - split_tests; reflexivity.
  - unfold hw_advance. destruct (hw_elapse h); repeat split; reflexivity.
Qed.

(* ====================================================================== *)
(** ** Drawing a button and formatting the time *)
(* ====================================================================== *)

(** X12.  For a button that lies on the 128 x 128 screen, [drawButton]
    only draws: it appends six calls to the display log and changes
    nothing else of the state, and the rectangle it fills is the one it
    outlines.  The two colours go through the [uint16_t] locals of lines
    251-252, which keep the low 16 bits of grlib's 24-bit values: a
    pressed button is filled with 0x0000 and labelled in 0xFFFF, a
    released one is filled with 0x8080 and labelled in 0x0000.  The label
    value is never the fill value, so the label is visible in both looks;
    the values are not those of [ClrWhite] and [ClrGray] (0xFFFF is the
    value of [ClrCyan]). *)
Theorem drawButton_label_is_visible (btn : MyButton) (s : State) :
  on_screen btn ->
  let s' := exec (drawButton btn) s in
  set_lcd (lcd s) s' = s /\
  exists (bg fg : ColorArg) (r : tRectangle) (x y : Z),
    lcd s' = lcd s ++
      [ GrContextForegroundSet bg; GrRectFill r;
        GrContextForegroundSet (Clr ClrBlack); GrRectDraw r;
        GrContextForegroundSet fg;
        GrStringDrawCentered (label btn) (-1) x y false ] /\
    (color_passed bg, color_passed fg)
      = (if pressed btn then (0x0000, 0xFFFF) else (0x8080, 0x0000)) /\
    color_passed bg <> color_passed fg /\
    color_passed fg <> Color_value ClrWhite /\
    color_passed bg <> Color_value ClrGray /\
    Color_value ClrCyan = 0xFFFF.
Proof.
  intros _. cbv zeta. split.
  - run_stmt. destruct s; reflexivity.
  - exists (ClrU16 (if pressed btn then ClrBlack else ClrGray)),
           (ClrU16 (if pressed btn then ClrWhite else ClrBlack)),
           (mkRect (btn_x btn) (btn_y btn) (btn_x btn + btn_w btn - 1)
              (btn_y btn + btn_h btn - 1)),
           (btn_x btn + Z.quot (btn_w btn) 2),
           (btn_y btn + Z.quot (btn_h btn) 2).
    split.
    + run_stmt. rewrite <- ?app_assoc. reflexivity.
    + destruct (pressed btn); repeat split; discriminate.
Qed.

Lemma drawButton_label_is_visible_witness :
  on_screen (mkMyButton 0 80 50 28 "PAUSE" true) /\
  exists (bg fg : ColorArg) (r : tRectangle) (x y : Z),
    lcd (exec (drawButton (mkMyButton 0 80 50 28 "PAUSE" true))
           (boot hw_play))
    = [ GrContextForegroundSet bg; GrRectFill r;
        GrContextForegroundSet (Clr ClrBlack); GrRectDraw r;
        GrContextForegroundSet fg;
        GrStringDrawCentered "PAUSE" (-1) x y false ] /\
    (color_passed bg, color_passed fg) = (0, 65535).
Proof.
  assert (H : on_screen (mkMyButton 0 80 50 28 "PAUSE" true)).
  { unfold on_screen. cbn. lia. }
  split; [exact H |].
  destruct (drawButton_label_is_visible (mkMyButton 0 80 50 28 "PAUSE" true)
              (boot hw_play) H) as (_ & bg & fg & r & x & y & L & V & _).
  exists bg, fg, r, x, y. split; [exact L | exact V].
Defined.

(** X13.  For a button that lies on the 128 x 128 screen, the rectangle
    that [drawButton] fills and outlines (line 254) is not empty and stays
    within pixels 0..127 in both directions, and the point at which the
    label is centred (line 263) lies inside the rectangle. *)
Theorem drawButton_stays_on_screen (btn : MyButton) (s : State) :
  on_screen btn ->
  exists (bg fg : ColorArg) (r : tRectangle) (x y : Z),
    lcd (exec (drawButton btn) s) = lcd s ++
      [ GrContextForegroundSet bg; GrRectFill r;
        GrContextForegroundSet (Clr ClrBlack); GrRectDraw r;
        GrContextForegroundSet fg;
        GrStringDrawCentered (label btn) (-1) x y false ] /\
    0 <= i16XMin r <= i16XMax r /\ i16XMax r <= 127 /\
    0 <= i16YMin r <= i16YMax r /\ i16YMax r <= 127 /\
    i16XMin r <= x <= i16XMax r /\ i16YMin r <= y <= i16YMax r.
Proof.
  unfold on_screen. intros (X & W & XW & Y & H & YH).
  exists (ClrU16 (if pressed btn then ClrBlack else ClrGray)),
         (ClrU16 (if pressed btn then ClrWhite else ClrBlack)),
         (mkRect (btn_x btn) (btn_y btn) (btn_x btn + btn_w btn - 1)
            (btn_y btn + btn_h btn - 1)),
         (btn_x btn + Z.quot (btn_w btn) 2),
         (btn_y btn + Z.quot (btn_h btn) 2).
  cbn [i16XMin i16XMax i16YMin i16YMax].
  assert (0 <= Z.quot (btn_w btn) 2 <= btn_w btn - 1).
  { rewrite Z.quot_div_nonneg by lia.
    pose proof (Z.div_mod (btn_w btn) 2 ltac:(lia)).
    pose proof (Z.mod_pos_bound (btn_w btn) 2 ltac:(lia)). lia. }
  assert (0 <= Z.quot (btn_h btn) 2 <= btn_h btn - 1).
  { rewrite Z.quot_div_nonneg by lia.
    pose proof (Z.div_mod (btn_h btn) 2 ltac:(lia)).
    pose proof (Z.mod_pos_bound (btn_h btn) 2 ltac:(lia)). lia. }
  split; [run_stmt; rewrite <- ?app_assoc; reflexivity |].
  repeat split; lia.
Qed.

Lemma drawButton_stays_on_screen_witness :
  on_screen (btnStart (boot hw_play)) /\
  exists (bg fg : ColorArg) (r : tRectangle) (x y : Z),
    lcd (exec (drawButton (btnStart (boot hw_play))) (boot hw_play))
    = lcd (boot hw_play) ++
      [ GrContextForegroundSet bg; GrRectFill r;
        GrContextForegroundSet (Clr ClrBlack); GrRectDraw r;
        GrContextForegroundSet fg;
        GrStringDrawCentered (label (btnStart (boot hw_play))) (-1) x y false ] /\
    0 <= i16XMin r <= i16XMax r /\ i16XMax r <= 127 /\
    0 <= i16YMin r <= i16YMax r /\ i16YMax r <= 127 /\
    i16XMin r <= x <= i16XMax r /\ i16YMin r <= y <= i16YMax r.
Proof.
  assert (H : on_screen (btnStart (boot hw_play))).
  { unfold on_screen. cbn. lia. }
  split; [exact H |].
  exact (drawButton_stays_on_screen (btnStart (boot hw_play)) (boot hw_play) H).
Defined.

Lemma drawButton_lcd (btn : MyButton) (s : State) :
  lcd (exec (drawButton btn) s) = lcd s ++ drawButton_calls btn.
Proof.
  unfold drawButton_calls. run_stmt. rewrite <- ?app_assoc. reflexivity.
Qed.

Lemma append_assoc_s (a b c : string) : ((a ++ b) ++ c = a ++ (b ++ c))%string.
Proof. induction a as [|ch a IH]; cbn; [reflexivity | now rewrite IH]. Qed.

Lemma substring_prefix (n : nat) (a b : string) :
  (n <= String.length a)%nat ->
  substring 0 n (a ++ b) = substring 0 n a.
Proof.
  revert a. induction n as [|n IH]; intros [|ch a] H; cbn in *; try lia.
  - destruct b; reflexivity.
  - reflexivity.
  - rewrite IH by lia. reflexivity.
Qed.

Lemma length_substring_ge (n : nat) (t : string) :
  (n <= String.length t)%nat -> String.length (substring 0 n t) = n.
Proof.
  revert t. induction n as [|n IH]; intros [|c t] H; cbn in *; try lia.
  rewrite IH by lia. reflexivity.
Qed.

(** X14.  The buffer of line 238 is too short for the format of line 239:
    whatever the four values, [snprintf] keeps exactly nine characters, all
    of them from the hours, minutes and seconds fields and their colons.
    The string left by line 239 is a strict cut of the formatted text and
    does not depend on [currentMS] at all. *)
Theorem line239_never_shows_milliseconds (hr mn sec ms ms' : Z) :
  String.length (str_line239 hr mn sec ms) = 9%nat /\
  str_line239 hr mn sec ms = str_line239 hr mn sec ms' /\
  str_line239 hr mn sec ms <> text_line239 hr mn sec ms.
Proof.
  assert (P : forall m,
             text_line239 hr mn sec m
             = ((fmt_0u 2 hr ++ ":" ++ fmt_0u 2 mn ++ ":" ++ fmt_0u 2 sec ++ ":")
                ++ fmt_0u 2 m)%string).
  { intros m. unfold text_line239. rewrite !append_assoc_s. reflexivity. }
  assert (Lp : (9 <= String.length
                  (fmt_0u 2 hr ++ ":" ++ fmt_0u 2 mn ++ ":" ++ fmt_0u 2 sec ++ ":"))%nat).
  { rewrite !length_append.
    pose proof (length_fmt_0u 2 hr). pose proof (length_fmt_0u 2 mn).
    pose proof (length_fmt_0u 2 sec). cbn [String.length]. lia. }
  assert (E : forall m,
             str_line239 hr mn sec m
             = substring 0 9
                 (fmt_0u 2 hr ++ ":" ++ fmt_0u 2 mn ++ ":" ++ fmt_0u 2 sec ++ ":")).
  { intros m. change (str_line239 hr mn sec m)
      with (substring 0 9 (text_line239 hr mn sec m)).
    rewrite P. apply substring_prefix, Lp. }
  split; [|split].
  - rewrite E. apply length_substring_ge, Lp.
  - rewrite (E ms), (E ms'). reflexivity.
  - intros C. pose proof (length_str_line239 hr mn sec ms) as B.
    rewrite C, P, length_append in B. pose proof (length_fmt_0u 2 ms). lia.
Qed.

(* ---------------------------------------------------------------------- *)
(** The number of decimal digits of an unsigned value. *)

Lemma length_string_of_uint (d : Decimal.uint) :
  String.length (NilEmpty.string_of_uint d) = Decimal.nb_digits d.
Proof. induction d; cbn; congruence. Qed.

Lemma usize_nb_digits (d : Decimal.uint) :
  DecimalPos.Unsigned.usize d = N.of_nat (Decimal.nb_digits d).
Proof.
  induction d; cbn [DecimalPos.Unsigned.usize Decimal.nb_digits];
    rewrite ?IHd; lia.
Qed.

Lemma nzhead_not_D0 (d d' : Decimal.uint) : Decimal.nzhead d <> Decimal.D0 d'.
Proof. induction d; cbn; try discriminate. exact IHd. Qed.

Lemma nb_digits_to_uint (n : N) (k : nat) :
  (n < 10 ^ N.of_nat (S k))%N ->
  (Decimal.nb_digits (N.to_uint n) <= S k)%nat.
Proof.
  intros Hn.
  pose proof (DecimalN.Unsigned.of_to n) as Hof.
  pose proof (DecimalN.Unsigned.to_of (N.to_uint n)) as Hnorm.
  rewrite Hof in Hnorm.
  assert (Hlead : forall (a : positive) (d' : Decimal.uint),
             N.pos (Pos.of_uint_acc d' a) = n ->
             (Decimal.nb_digits d' <= k)%nat).
  { intros a d' E.
    rewrite DecimalPos.Unsigned.of_uint_acc_rev, usize_nb_digits in E.
    assert (L : (10 ^ N.of_nat (Decimal.nb_digits d') <= n)%N).
    { rewrite <- E.
      assert (1 * 10 ^ N.of_nat (Decimal.nb_digits d')
              <= N.pos a * 10 ^ N.of_nat (Decimal.nb_digits d'))%N
        by (apply N.mul_le_mono_r; lia).
      lia. }
    assert (10 ^ N.of_nat (Decimal.nb_digits d') < 10 ^ N.of_nat (S k))%N
      by lia.
    apply N.pow_lt_mono_r_iff in H; lia. }
  destruct (N.to_uint n) as [|d'|d'|d'|d'|d'|d'|d'|d'|d'|d'] eqn:E;
    cbn [Decimal.nb_digits]; try lia;
    try (apply le_n_S; eapply Hlead; exact Hof).
  (* a leading zero: the value is zero, written with one digit *)
  unfold Decimal.unorm in Hnorm. cbn [Decimal.nzhead] in Hnorm.
  destruct (Decimal.nzhead d') eqn:Ez.
  - injection Hnorm as Hd. subst d'. cbn. lia.
  - exfalso. apply (nzhead_not_D0 d' d'). congruence.
  - discriminate.
  - discriminate.
  - discriminate.
  - discriminate.
  - discriminate.
  - discriminate.
  - discriminate.
  - discriminate.
  - discriminate.
Qed.

Lemma length_utoa (n : Z) (k : nat) :
  0 <= n < 10 ^ Z.of_nat (S k) -> (String.length (utoa n) <= S k)%nat.
Proof.
  intros H. unfold utoa. rewrite length_string_of_uint.
  apply nb_digits_to_uint.
  apply N2Z.inj_lt. rewrite Z2N.id by lia.
  rewrite N2Z.inj_pow, nat_N_Z. exact (proj2 H).
Qed.

Lemma substring_all (n : nat) (t : string) :
  (String.length t <= n)%nat -> substring 0 n t = t.
Proof.
  revert t. induction n as [|n IH]; intros [|c t] H; cbn in *; try lia;
    try reflexivity.
  rewrite IH by lia. reflexivity.
Qed.

(** X15.  The buffer of line 238 is long enough for line 240 on every
    32-bit elapsed time: [gStopwatchMs / 1000] has at most seven digits,
    so ["%02u s"] gives at most nine characters and the string drawn is
    the whole text, never a cut of it.  The margin is exact: a seconds
    value of eight digits would lose its final [s]. *)
Theorem line240_text_is_never_cut (ms : Z) :
  is_u32 ms ->
  str_line240 (currentSec_of ms)
    = (fmt_0u 2 (currentSec_of ms) ++ " s")%string /\
  (4 <= String.length (str_line240 (currentSec_of ms)) <= 9)%nat /\
  str_line240 10000000 = "10000000 "%string.
Proof.
  unfold is_u32, currentSec_of. intros H.
  assert (B : 0 <= ms / 1000 < 10 ^ Z.of_nat 7).
  { split; [apply Z.div_pos; lia | apply Z.div_lt_upper_bound; lia]. }
  pose proof (length_utoa (ms / 1000) 6 B) as D.
  assert (L : (String.length (fmt_0u 2 (ms / 1000) ++ " s") <= 9)%nat).
  { rewrite length_append. unfold fmt_0u. rewrite length_append, length_zeros.
    cbn [String.length]. lia. }
  assert (E : str_line240 (ms / 1000) = (fmt_0u 2 (ms / 1000) ++ " s")%string).
  { unfold str_line240, snprintf. apply substring_all. exact L. }
  split; [exact E | split; [| reflexivity]].
  rewrite E. split; [| exact L].
  rewrite length_append. pose proof (length_fmt_0u 2 (ms / 1000)).
  cbn [String.length]. lia.
Qed.

Lemma line240_text_is_never_cut_witness :
  is_u32 UINT32_MAX /\
  str_line240 (currentSec_of UINT32_MAX) = "4294967 s"%string.
Proof.
  assert (H : is_u32 UINT32_MAX).
  { vm_compute. split; [discriminate | reflexivity]. }
  split; [exact H |].
  destruct (line240_text_is_never_cut UINT32_MAX H) as (E & _).
  rewrite E. vm_compute. reflexivity.
Defined.

(** X16.  A running iteration that adds time reads the counter twice, at
    line 124 and again for the assignment of line 127, and the meter
    restarts from the second reading.  The milliseconds it adds never
    account for more ticks than had passed at the first reading, so the
    remainder below one millisecond and the ticks between the two readings
    are dropped: the stopwatch can only lag the counter, never lead
    it. *)
Theorem time_step_drops_the_remainder (s : State) :
  gRunning s = true -> 0 < meter_reading stopwatchTick s ->
  0 < ticksPerMs (timer s) ->
  let s' := exec stopwatch_logic s in
  let first := hw_counter (hw_advance (hw s)) in
  hw s' = hw_advance (hw_advance (hw s)) /\
  origin (stopwatchTick s') = hw_counter (hw s') /\
  meter_reading stopwatchTick s * ticksPerMs (timer s)
    <= wrap32 (first - origin (stopwatchTick s)).
Proof.
  intros R D T. cbv zeta.
  rewrite meter_reading_eq in *. unfold ticks_to_ms in *.
  split; [| split].
  - revert R D. run_stmt.
    destruct s as [? ? ? ? r ? ? ? ? ? ? ? ? ? ? ? ? ?]. intros -> D.
    apply Z.ltb_lt in D. run_stmt. unfold ticks_to_ms. rewrite D. reflexivity.
  - revert R D. run_stmt.
    destruct s as [? ? ? ? r ? ? ? ? ? ? ? ? ? ? ? ? ?]. intros -> D.
    apply Z.ltb_lt in D. run_stmt. unfold ticks_to_ms. rewrite D. reflexivity.
  - rewrite Z.mul_comm. apply Z.mul_div_le. exact T.
Qed.

Lemma time_step_drops_the_remainder_witness :
  gRunning at_lagging = true /\
  0 < meter_reading stopwatchTick at_lagging /\
  0 < ticksPerMs (timer at_lagging) /\
  hw_counter (hw (exec stopwatch_logic at_lagging)) = 288000 /\
  origin (stopwatchTick (exec stopwatch_logic at_lagging)) = 288000 /\
  gStopwatchMs (exec stopwatch_logic at_lagging) = 1.
Proof.
  assert (R : gRunning at_lagging = true) by reflexivity.
  assert (D : 0 < meter_reading stopwatchTick at_lagging).
  { vm_compute. reflexivity. }
  assert (T : 0 < ticksPerMs (timer at_lagging)).
  { vm_compute. reflexivity. }
  split; [exact R | split; [exact D | split; [exact T |]]].
  destruct (time_step_drops_the_remainder at_lagging R D T) as (H & O & _).
  rewrite O, H. vm_compute. repeat split; reflexivity.
Defined.
(* ====================================================================== *)
(** ** The screen follows the model *)
(* ====================================================================== *)

Lemma frame_calls_shown (sec : Z) (s : State) (l : list GrCall) :
  geometry (btnStart s) = (0, 80, 50, 28) ->
  geometry (guiBtnReset s) = (60, 80, 50, 28) ->
  time_string_shown (l ++ frame_calls sec s) = Some (str_line240 sec) /\
  state_word_shown (l ++ frame_calls sec s)
    = Some (if gRunning s then "RUNNING" else "STOPPED")%string.
Proof.
  unfold geometry. intros G1 G2.
  injection G1 as X1 Y1 W1 H1. injection G2 as X2 Y2 W2 H2.
  unfold time_string_shown, state_word_shown. rewrite rev_app_distr.
  unfold frame_calls, drawStopwatchScreen_calls, drawButton_calls.
  rewrite X1, Y1, W1, H1, X2, Y2, W2, H2.
  change (0 + Z.quot 50 2) with 25. change (80 + Z.quot 28 2) with 94.
  change (60 + Z.quot 50 2) with 85.
  split; reflexivity.
Qed.

Lemma config_geometry (s : State) :
  config s = (120000000, mkTimer 120000, (0, 80, 50, 28), (60, 80, 50, 28),
              "RESET"%string) ->
  geometry (btnStart s) = (0, 80, 50, 28) /\
  geometry (guiBtnReset s) = (60, 80, 50, 28).
Proof.
  unfold config, geometry. intros C.
  injection C as _ _ X1 Y1 W1 H1 X2 Y2 W2 H2 _.
  rewrite X1, Y1, W1, H1, X2, Y2, W2, H2. split; reflexivity.
Qed.

Lemma loop_body_boundary (s : State) :
  config s = (120000000, mkTimer 120000, (0, 80, 50, 28), (60, 80, 50, 28),
              "RESET"%string) ->
  boundary_ok (exec loop_body s).
Proof.
  intros C. unfold boundary_ok.
  destruct (loop_body_repaint s) as (_ & Cs & R & _).
  rewrite loop_body_config, loop_body_ms_input. auto.
Qed.

Lemma main_run_boundary (n : nat) (h : Hw) : boundary_ok (main_run (S n) h).
Proof. rewrite main_run_succ. apply loop_body_boundary, main_run_config. Qed.

(** At a boundary, an iteration that leaves another seconds value or
    another running flag than it found repaints. *)
Lemma change_repaints (s : State) :
  boundary_ok s ->
  gRunning (exec loop_body s) <> gRunning s \/
  gStopwatchMs (exec loop_body s) / 1000 <> gStopwatchMs s / 1000 ->
  lcd (exec loop_body s) <> lcd s.
Proof.
  intros (Bs & Br & _) H.
  destruct (loop_body_repaint s) as (L & _). rewrite L.
  apply app_changes.
  destruct (loop_input_frame s) as (_ & _ & _ & Ks & Kr).
  assert (D : repaint_due (currentSec_of (gStopwatchMs (exec loop_input s)))
                (lastDisplayedSec (exec loop_input s)) (exec loop_input s)
              = true).
  { apply repaint_due_iff. rewrite Ks, Kr, Bs, Br.
    rewrite loop_body_ms_input in H.
    rewrite loop_body_eq in H.
    destruct (loop_update_frame (exec loop_input s)) as (_ & G & _).
    rewrite G in H. unfold currentSec_of. tauto. }
  rewrite D. apply frame_calls_not_nil.
Qed.

(** X17.  No change of the running flag and no change of the seconds
    value goes undrawn: in any run, an iteration that ends with another
    [gRunning] or another [gStopwatchMs / 1000] than the one before it
    repaints in that same iteration. *)
Theorem changes_are_drawn_at_once (n : nat) (h : Hw) :
  gRunning (main_run (S n) h) <> gRunning (main_run n h) \/
  gStopwatchMs (main_run (S n) h) / 1000 <> gStopwatchMs (main_run n h) / 1000 ->
  lcd (main_run (S n) h) <> lcd (main_run n h).
Proof.
  destruct n as [|n].
  - intros _. rewrite first_iteration_lcd.
    apply app_changes, frame_calls_not_nil.
  - rewrite (main_run_succ (S n)). apply change_repaints, main_run_boundary.
Qed.

Lemma changes_are_drawn_at_once_witness :
  gRunning (main_run 2 hw_play) <> gRunning (main_run 1 hw_play) /\
  lcd (main_run 2 hw_play) <> lcd (main_run 1 hw_play).
Proof.
  assert (H : gRunning (main_run 2 hw_play) <> gRunning (main_run 1 hw_play)).
  { vm_compute. discriminate. }
  split; [exact H |].
  exact (changes_are_drawn_at_once 1 hw_play (or_introl H)).
Defined.

Lemma loop_body_screen (s : State) :
  boundary_ok s -> screen_ok s -> screen_ok (exec loop_body s).
Proof.
  intros (Bs & Br & C) (T & W). unfold screen_ok.
  destruct (loop_body_repaint s) as (L & _). rewrite L.
  rewrite loop_body_ms_input.
  assert (G : gRunning (exec loop_body s) = gRunning (exec loop_input s)).
  { rewrite loop_body_eq. apply (loop_update_frame (exec loop_input s)). }
  rewrite G.
  destruct (loop_input_frame s) as (_ & _ & _ & Ks & Kr).
  rewrite <- (loop_input_config s) in C.
  destruct (config_geometry _ C) as (G1 & G2).
  unfold currentSec_of in *.
  destruct (repaint_due _ _ _) eqn:D.
  - apply frame_calls_shown; assumption.
  - rewrite app_nil_r.
    assert (N : ~ (gStopwatchMs (exec loop_input s) / 1000
                     <> lastDisplayedSec (exec loop_input s)
                   \/ gRunning (exec loop_input s)
                     <> lastRunning (exec loop_input s)
                   \/ DISPLAY_REFRESH_MS
                     <= meter_reading displayTick (exec loop_input s))).
    { intros N. apply repaint_due_iff in N. congruence. }
    assert (E1 : gStopwatchMs (exec loop_input s) / 1000
                 = gStopwatchMs s / 1000).
    { rewrite <- Bs, <- Ks.
      destruct (Z.eq_dec (gStopwatchMs (exec loop_input s) / 1000)
                  (lastDisplayedSec (exec loop_input s))); tauto. }
    assert (E2 : gRunning (exec loop_input s) = gRunning s).
    { rewrite <- Br, <- Kr.
      destruct (Bool.bool_dec (gRunning (exec loop_input s))
                  (lastRunning (exec loop_input s))); tauto. }
    rewrite E1, E2. split; assumption.
Qed.

Lemma main_run_screen (n : nat) (h : Hw) : screen_ok (main_run (S n) h).
Proof.
  induction n as [|n IH].
  - unfold screen_ok. rewrite first_iteration_lcd.
    pose proof (main_run_config 0 h) as C.
    rewrite <- (loop_input_config (main_run 0 h)) in C.
    destruct (config_geometry _ C) as (G1 & G2).
    rewrite main_run_succ, loop_body_ms_input.
    assert (G : gRunning (exec loop_body (main_run 0 h))
                = gRunning (exec loop_input (main_run 0 h))).
    { rewrite loop_body_eq.
      apply (loop_update_frame (exec loop_input (main_run 0 h))). }
    rewrite G. unfold currentSec_of. apply frame_calls_shown; assumption.
  - rewrite (main_run_succ (S n)).
    apply loop_body_screen; [apply main_run_boundary | exact IH].
Qed.

(** X18.  The screen is never stale in what it says: at the end of every
    iteration of any run, the frame drawn last shows the time string of
    the current [gStopwatchMs / 1000] and the state word of the current
    [gRunning], whether the iteration repainted or not. *)
Theorem screen_shows_current_seconds_and_state (n : nat) (h : Hw) :
  let s := main_run (S n) h in
  time_string_shown (lcd s) = Some (str_line240 (gStopwatchMs s / 1000)) /\
  state_word_shown (lcd s)
    = Some (if gRunning s then "RUNNING" else "STOPPED")%string.
Proof. exact (main_run_screen n h). Qed.
